(** * A shallow embedding of [object_detection_gui.py]

    The program is a Tk front end: the user picks an image, a worker thread
    runs the external [detect.py] and schedules callbacks on the Tk main loop
    with [root.after], and two labels show the original and the annotated
    image, rescaled on every resize.

    What is modelled, and how:
    - Python values: [str] as [string] (one character per code point below
      256), [int] as [Z], [None]-or-value as [option], a raised exception as
      the [Raise] case of [py_result];
    - [os.path] in its POSIX flavour ([os_path.join], [os_path.basename]);
    - the file system, the PIL/Tk library calls, the widget geometry and the
      child process as the fields of an environment record [Env]: the code
      only observes them;
    - the widgets as the record [gui], the message boxes and the thread start
      as a chronological [trace] beside it, and every method of [YOLOv7GUI]
      as a state transformer written in the order of its statements;
    - the worker [detect_objects] as a function to the list of callbacks it
      hands to [root.after], which [mainloop_runs] then executes in order, or
      to the exception that leaves the thread before anything is scheduled.
    [print] is the field [builtin_print] of [Env] wherever the worker calls
    it: there an exception of [print] changes what is scheduled. The one
    [print] of the main thread (after a failed [PhotoImage]) and widget
    styling are not modelled. *)

From Stdlib Require Import ZArith List String Ascii Bool Lia.
From Stdlib Require DecimalString.
Import ListNotations.
Local Open Scope string_scope.
Local Open Scope Z_scope.

Set Implicit Arguments.

(** ** Python values *)

(** An instance of a subclass of [Exception], as far as the code tells them
    apart: [except FileNotFoundError] comes before [except Exception].
    [exn_class] is [type(e).__name__] of any other class and [exn_str] is
    [str(e)]. *)
Inductive exn : Type :=
| FileNotFoundError (exn_str : string)
| Exception (exn_class exn_str : string).

Definition type_name (e : exn) : string :=
  match e with
  | FileNotFoundError _ => "FileNotFoundError"
  | Exception cls _ => cls
  end.

Definition str_exn (e : exn) : string :=
  match e with
  | FileNotFoundError s => s
  | Exception _ s => s
  end.

Inductive py_result (A : Type) : Type :=
| Ok (a : A)
| Raise (e : exn).
Arguments Ok {A} a.
Arguments Raise {A} e.

Definition py_bind {A B : Type} (c : py_result A) (k : A -> py_result B)
  : py_result B :=
  match c with
  | Ok a => k a
  | Raise e => Raise e
  end.

Notation "x <- c ;; k" := (py_bind c (fun x => k))
  (at level 61, c at next level, right associativity).

(** Truthiness of an optional string: [None] and the empty string are falsy. *)
Definition truthy (p : option string) : bool :=
  match p with
  | Some s => negb (s =? "")%string
  | None => false
  end.

Definition nl : string := String (ascii_of_nat 10) "".

(** [str(n)] for an [int]. *)
Definition str_int (n : Z) : string :=
  DecimalString.NilZero.string_of_int (Z.to_int n).

(** [' '.join(l)] and the like. *)
Definition str_join (sep : string) (l : list string) : string :=
  String.concat sep l.

(** [l[-n:]]: the last [n] elements, the whole list when it is shorter. *)
Definition last_n {A : Type} (n : nat) (l : list A) : list A :=
  skipn (List.length l - n)%nat l.

(** [str.splitlines()]: the line boundaries among the code points below 256
    are LF, VT, FF, CR (and CR LF as one), FS, GS, RS and NEL; a boundary at
    the very end opens no further line. *)
Definition is_linebreak (c : ascii) : bool :=
  let n := nat_of_ascii c in
  existsb (Nat.eqb n) [10; 11; 12; 13; 28; 29; 30; 133]%nat.

Fixpoint splitlines_from (cur s : string) : list string :=
  match s with
  | EmptyString => if (cur =? "")%string then [] else [cur]
  | String c rest =>
      if is_linebreak c then
        match rest with
        | String c2 rest2 =>
            if (nat_of_ascii c =? 13)%nat && (nat_of_ascii c2 =? 10)%nat
            then cur :: splitlines_from "" rest2
            else cur :: splitlines_from "" rest
        | EmptyString => [cur]
        end
      else splitlines_from (cur ++ String c "") rest
  end.

Definition splitlines (s : string) : list string := splitlines_from "" s.

(** [max(l, key=key)]: the first element whose key no later element exceeds;
    the key is computed once per element, in order, and a key that raises
    aborts the scan. [ValueError] on the empty list. *)
Fixpoint max_scan {A : Type} (key : A -> py_result Z) (best : A) (best_key : Z)
    (l : list A) : py_result A :=
  match l with
  | [] => Ok best
  | x :: rest =>
      k <- key x ;;
      if best_key <? k then max_scan key x k rest
      else max_scan key best best_key rest
  end.

Definition py_max {A : Type} (l : list A) (key : A -> py_result Z)
  : py_result A :=
  match l with
  | [] => Raise (Exception "ValueError" "max() arg is an empty sequence")
  | x :: rest => k <- key x ;; max_scan key x k rest
  end.

(** ** [os.path], POSIX flavour *)

Module os_path.

Definition sep : ascii := "/"%char.

Definition startswith_sep (s : string) : bool :=
  match s with
  | String c _ => Ascii.eqb c sep
  | EmptyString => false
  end.

Fixpoint endswith_sep (s : string) : bool :=
  match s with
  | EmptyString => false
  | String c EmptyString => Ascii.eqb c sep
  | String _ rest => endswith_sep rest
  end.

Fixpoint has_sep (s : string) : bool :=
  match s with
  | EmptyString => false
  | String c rest => Ascii.eqb c sep || has_sep rest
  end.

(** One round of the loop of [posixpath.join]. *)
Definition join2 (path b : string) : string :=
  if startswith_sep b then b
  else if (path =? "")%string || endswith_sep path then path ++ b
  else path ++ "/" ++ b.

(** [os.path.join(a, *p)]. *)
Definition join (a : string) (p : list string) : string :=
  fold_left join2 p a.

(** [os.path.basename(p)]: what follows the last separator. *)
Fixpoint basename (p : string) : string :=
  match p with
  | EmptyString => EmptyString
  | String c rest =>
      if has_sep rest then basename rest
      else if Ascii.eqb c sep then rest
      else p
  end.

End os_path.

(** ** The widgets and the outside world *)

(** [tk.NORMAL] and [tk.DISABLED]. *)
Inductive tk_state : Type := NORMAL | DISABLED.

(** A PIL image, as far as the program looks at it: its size in pixels. *)
Record pil_image : Type := { im_width : Z; im_height : Z }.

(** [ImageTk.PhotoImage(img)]: the bitmap Tk shows, of the size of [img]. *)
Inductive photo : Type := PhotoImage (shown : pil_image).

Definition photo_width (p : photo) : Z := let 'PhotoImage i := p in im_width i.
Definition photo_height (p : photo) : Z := let 'PhotoImage i := p in im_height i.

(** An image label: the Tk option [image] ([None] for [image=""]) and the
    two attributes the program hangs on the widget; an attribute never set
    reads as [None], as [getattr(.., None)] has it. *)
Record label : Type := {
  config_image : option photo;
  image : option photo;
  original_image : option pil_image
}.

Inductive label_name : Type := input_label | result_label.

(** The attributes of a [YOLOv7GUI] that its methods read or write. *)
Record gui : Type := {
  yolov7_dir : string;
  weights_path : string;
  input_image_path : option string;
  browse_button : tk_state;
  detect_button : tk_state;
  reset_button : tk_state;
  info_label : string;
  input_image_label : label;
  result_image_label : label
}.

(** What a method leaves behind besides widget state, oldest first. A thread
    start records the widgets as they are at that moment. *)
Inductive event : Type :=
| showerror (title message : string)
| showwarning (title message : string)
| thread_start (widgets_then : gui).

Record world : Type := { ui : gui; trace : list event }.

(** [subprocess.CompletedProcess] with [capture_output=True, text=True]. *)
Record CompletedProcess : Type := {
  returncode : Z;
  stdout : string;
  stderr : string
}.

(** Everything the program observes and does not own, as it stands while one
    callback or one worker run executes. [os_path_getmtime] is a timestamp,
    compared only by order. [image_thumbnail img size] is
    [img.copy().thumbnail(size, LANCZOS)]: PIL code, a parameter here.
    [photo_error img] is the exception [ImageTk.PhotoImage(img)] raises, if
    any. [winfo_size l] is [winfo_width(), winfo_height()] of the frame
    around label [l]. [builtin_print text] is [print(text)] on the console
    the program was started from: it raises when the console is gone or
    cannot encode the text. *)
Record Env : Type := {
  sys_executable : string;
  os_path_exists : string -> bool;
  os_path_isdir : string -> bool;
  os_path_isfile : string -> bool;
  os_listdir : string -> py_result (list string);
  os_path_getmtime : string -> py_result Z;
  PILImage_open : string -> py_result pil_image;
  image_thumbnail : pil_image -> Z * Z -> py_result pil_image;
  photo_error : pil_image -> option exn;
  winfo_size : label_name -> Z * Z;
  subprocess_run : list string -> string -> py_result CompletedProcess;
  builtin_print : string -> py_result unit
}.

(** *** Field updates *)

Definition get_label (l : label_name) (g : gui) : label :=
  match l with
  | input_label => input_image_label g
  | result_label => result_image_label g
  end.

Definition with_label (l : label_name) (f : label -> label) (g : gui) : gui :=
  match l with
  | input_label =>
      {| yolov7_dir := yolov7_dir g; weights_path := weights_path g;
         input_image_path := input_image_path g;
         browse_button := browse_button g; detect_button := detect_button g;
         reset_button := reset_button g; info_label := info_label g;
         input_image_label := f (input_image_label g);
         result_image_label := result_image_label g |}
  | result_label =>
      {| yolov7_dir := yolov7_dir g; weights_path := weights_path g;
         input_image_path := input_image_path g;
         browse_button := browse_button g; detect_button := detect_button g;
         reset_button := reset_button g; info_label := info_label g;
         input_image_label := input_image_label g;
         result_image_label := f (result_image_label g) |}
  end.

Definition on_ui (f : gui -> gui) (w : world) : world :=
  {| ui := f (ui w); trace := trace w |}.

Definition emit (e : event) (w : world) : world :=
  {| ui := ui w; trace := (trace w ++ [e])%list |}.

Notation "w |> f" := (f w) (at level 45, left associativity, only parsing).

(** [self.input_image_path = p] *)
Definition set_input_image_path (p : option string) : world -> world :=
  on_ui (fun g =>
    {| yolov7_dir := yolov7_dir g; weights_path := weights_path g;
       input_image_path := p;
       browse_button := browse_button g; detect_button := detect_button g;
       reset_button := reset_button g; info_label := info_label g;
       input_image_label := input_image_label g;
       result_image_label := result_image_label g |}).

(** [self.browse_button.config(state=s)] *)
Definition browse_button_config (s : tk_state) : world -> world :=
  on_ui (fun g =>
    {| yolov7_dir := yolov7_dir g; weights_path := weights_path g;
       input_image_path := input_image_path g;
       browse_button := s; detect_button := detect_button g;
       reset_button := reset_button g; info_label := info_label g;
       input_image_label := input_image_label g;
       result_image_label := result_image_label g |}).

(** [self.detect_button.config(state=s)] *)
Definition detect_button_config (s : tk_state) : world -> world :=
  on_ui (fun g =>
    {| yolov7_dir := yolov7_dir g; weights_path := weights_path g;
       input_image_path := input_image_path g;
       browse_button := browse_button g; detect_button := s;
       reset_button := reset_button g; info_label := info_label g;
       input_image_label := input_image_label g;
       result_image_label := result_image_label g |}).

(** [self.reset_button.config(state=s)] *)
Definition reset_button_config (s : tk_state) : world -> world :=
  on_ui (fun g =>
    {| yolov7_dir := yolov7_dir g; weights_path := weights_path g;
       input_image_path := input_image_path g;
       browse_button := browse_button g; detect_button := detect_button g;
       reset_button := s; info_label := info_label g;
       input_image_label := input_image_label g;
       result_image_label := result_image_label g |}).

(** [self.info_label.config(text=t)] *)
Definition info_label_config (t : string) : world -> world :=
  on_ui (fun g =>
    {| yolov7_dir := yolov7_dir g; weights_path := weights_path g;
       input_image_path := input_image_path g;
       browse_button := browse_button g; detect_button := detect_button g;
       reset_button := reset_button g; info_label := t;
       input_image_label := input_image_label g;
       result_image_label := result_image_label g |}).

(** [label.config(image=p)], [label.image = p], [label.original_image = i] *)
Definition label_config_image (l : label_name) (p : option photo)
  : world -> world :=
  on_ui (with_label l (fun b =>
    {| config_image := p; image := image b;
       original_image := original_image b |})).

Definition label_set_image (l : label_name) (p : option photo)
  : world -> world :=
  on_ui (with_label l (fun b =>
    {| config_image := config_image b; image := p;
       original_image := original_image b |})).

Definition label_set_original_image (l : label_name) (i : option pil_image)
  : world -> world :=
  on_ui (with_label l (fun b =>
    {| config_image := config_image b; image := image b;
       original_image := i |})).

(** The three statements that recur wherever a panel is emptied. *)
Definition clear_label (l : label_name) (w : world) : world :=
  w |> label_config_image l None
    |> label_set_image l None
    |> label_set_original_image l None.

Definition empty_label : label :=
  {| config_image := None; image := None; original_image := None |}.

Definition messagebox_showerror (title message : string) : world -> world :=
  emit (showerror title message).

Definition messagebox_showwarning (title message : string) : world -> world :=
  emit (showwarning title message).

(** [threading.Thread(target=self.detect_objects, daemon=True).start()] *)
Definition Thread_start (w : world) : world :=
  emit (thread_start (ui w)) w.

(** ** The methods of [YOLOv7GUI] *)

(** [reset_ui(self, clear_input=True)] *)
Definition reset_ui (clear_input : bool) (w : world) : world :=
  let w :=
    if clear_input then
      w |> set_input_image_path None
        |> info_label_config "Select an image to begin detection."
        |> label_config_image input_label None
        |> label_set_image input_label None
        |> label_set_original_image input_label None
        |> detect_button_config DISABLED
    else w in
  let w :=
    w |> label_config_image result_label None
      |> label_set_image result_label None
      |> label_set_original_image result_label None
      |> browse_button_config NORMAL
      |> reset_button_config NORMAL in
  if negb clear_input && truthy (input_image_path (ui w))
  then w |> detect_button_config NORMAL
  else w.

(** [check_yolov7_setup(self)]: the returned flag and the warnings shown. *)
Definition check_yolov7_setup (E : Env) (w : world) : bool * world :=
  let dir := yolov7_dir (ui w) in
  if negb (os_path_isdir E dir) then
    (false,
     w |> messagebox_showwarning "Setup Warning"
            ("YOLOv7 directory not found at: " ++ dir ++ nl ++
             "Please ensure the 'yolov7' folder is in the same directory as this script, " ++
             "or modify the 'self.yolov7_dir' path in the code." ++ nl ++
             "Detection will likely fail."))
  else
    let detect_script := os_path.join dir ["detect.py"] in
    if negb (os_path_isfile E detect_script) then
      (false,
       w |> messagebox_showwarning "Setup Warning"
              ("YOLOv7 'detect.py' script not found in: " ++ dir ++ nl ++
               "Detection will not work."))
    else
      let w :=
        if negb (os_path_isfile E (weights_path (ui w))) then
          w |> messagebox_showwarning "Setup Warning"
                 ("Default weights file '" ++
                  os_path.basename (weights_path (ui w)) ++
                  "' not found in: " ++ dir ++ nl ++
                  "Detection requires weights. You might need to download them (e.g., yolov7.pt).")
        else w in
      (true, w).

(** The widgets as [__init__] and [build_widgets] leave them; [dir] is
    [os.path.abspath("yolov7")]. *)
Definition built_widgets (dir : string) : gui :=
  {| yolov7_dir := dir;
     weights_path := os_path.join dir ["yolov7.pt"];
     input_image_path := None;
     browse_button := NORMAL;
     detect_button := DISABLED;
     reset_button := NORMAL;
     info_label := "Select an image to begin detection.";
     input_image_label := empty_label;
     result_image_label := empty_label |}.

(** [__init__(self, root)] *)
Definition YOLOv7GUI_init (E : Env) (dir : string) : world :=
  snd (check_yolov7_setup E {| ui := built_widgets dir; trace := [] |}).

(** [update_label_image(self, label_widget)]. Raises what [copy()] or
    [thumbnail] raises; an exception of [PhotoImage] is caught and printed. *)
Definition update_label_image (E : Env) (l : label_name) (w : world)
  : py_result world :=
  match original_image (get_label l (ui w)) with
  | None => Ok w
  | Some orig_image =>
      let '(width, height) := winfo_size E l in
      if (width <? 20) || (height <? 20) then Ok w
      else
        img_copy <- image_thumbnail E orig_image (width - 10, height - 10) ;;
        match photo_error E img_copy with
        | None =>
            let photo := PhotoImage img_copy in
            Ok (w |> label_config_image l (Some photo)
                  |> label_set_image l (Some photo))
        | Some _ => Ok w
        end
  end.

(** The [<Configure>] binding of a label: an exception of the callback is
    reported by Tk and changes nothing. *)
Definition on_configure (E : Env) (l : label_name) (w : world) : world :=
  match update_label_image E l w with
  | Ok w' => w'
  | Raise _ => w
  end.

(** The two [except] clauses of [display_flexible_image]. *)
Definition display_failed (image_path : string) (e : exn) (w : world) : world :=
  match e with
  | FileNotFoundError _ =>
      w |> messagebox_showerror "Error" ("Image file not found: " ++ image_path)
        |> reset_ui true
  | Exception _ _ =>
      w |> messagebox_showerror "Image Loading Error"
             ("Could not load image: " ++ image_path ++ nl ++
              "Error: " ++ str_exn e)
        |> reset_ui true
  end.

(** [display_flexible_image(self, image_path, label_widget)] *)
Definition display_flexible_image (E : Env) (image_path : string)
    (l : label_name) (w : world) : world :=
  let w := w |> label_set_image l None |> label_set_original_image l None in
  match PILImage_open E image_path with
  | Raise e => display_failed image_path e w
  | Ok orig_image =>
      let w := w |> label_set_original_image l (Some orig_image) in
      match update_label_image E l w with
      | Ok w' => w'
      | Raise e => display_failed image_path e w
      end
  end.

(** [browse_image(self)]; [file_path] is what the file dialog returned, the
    empty string when it was cancelled. *)
Definition browse_image (E : Env) (file_path : string) (w : world) : world :=
  if (file_path =? "")%string then w
  else
    w |> reset_ui false
      |> set_input_image_path (Some file_path)
      |> info_label_config ("Selected: " ++ os_path.basename file_path)
      |> display_flexible_image E file_path input_label
      |> detect_button_config NORMAL
      |> clear_label result_label.

(** [start_detection_thread(self)]. [update_idletasks()] redraws and runs
    no callback of the program: it has no counterpart here. *)
Definition start_detection_thread (E : Env) (w : world) : world :=
  let valid :=
    match input_image_path (ui w) with
    | Some p => negb (p =? "")%string && os_path_exists E p
    | None => false
    end in
  if negb valid then
    w |> messagebox_showerror "Error" "No valid image selected or file not found."
  else
    let '(setup_ok, w) := check_yolov7_setup E w in
    if negb setup_ok then w
    else
      w |> detect_button_config DISABLED
        |> browse_button_config DISABLED
        |> reset_button_config DISABLED
        |> info_label_config "Detecting objects, please wait..."
        |> label_config_image result_label None
        |> label_set_image result_label None
        |> label_set_original_image result_label None
        |> Thread_start.

(** [update_gui_post_detection(self, output_path, success)] *)
Definition update_gui_post_detection (E : Env) (output_path : option string)
    (success : bool) (w : world) : world :=
  let w :=
    match output_path with
    | Some p =>
        if success && negb (p =? "")%string then
          w |> info_label_config
                 ("Detection complete. Result: " ++ os_path.basename p)
            |> display_flexible_image E p result_label
        else
          w |> info_label_config "Detection failed or output not found."
            |> clear_label result_label
    | None =>
        w |> info_label_config "Detection failed or output not found."
          |> clear_label result_label
    end in
  w |> detect_button_config
         (if truthy (input_image_path (ui w)) then NORMAL else DISABLED)
    |> browse_button_config NORMAL
    |> reset_button_config NORMAL.

(** ** The worker thread *)

(** A call handed to the main loop: [self.root.after(0, f, *args)] with [f]
    either [messagebox.showerror] or [self.update_gui_post_detection]. *)
Inductive after_call : Type :=
| after_showerror (title message : string)
| after_update_gui_post_detection (output_path : option string) (success : bool).

(** The list comprehension of [find_latest_run_output]. *)
Definition sub_dirs_of (E : Env) (project_dir : string) (names : list string)
  : list string :=
  map (fun d => os_path.join project_dir [d])
      (filter (fun d => os_path_isdir E (os_path.join project_dir [d])) names).

(** [find_latest_run_output(self, project_dir, image_name)]; an exception
    inside the [try] is caught, printed, and gives [None]; an exception of
    that [print] leaves the method. *)
Definition find_latest_run_output (E : Env) (project_dir image_name : string)
  : py_result (option string) :=
  let body :=
    names <- os_listdir E project_dir ;;
    let sub_dirs := sub_dirs_of E project_dir names in
    match sub_dirs with
    | [] => Ok None
    | _ =>
        latest_dir <- py_max sub_dirs (os_path_getmtime E) ;;
        let potential_output := os_path.join latest_dir [image_name] in
        Ok (if os_path_exists E potential_output
            then Some potential_output else None)
    end in
  match body with
  | Ok r => Ok r
  | Raise e =>
      printed <- builtin_print E
                   ("Error finding latest run directory: " ++ str_exn e) ;;
      Ok None
  end.

Definition project_dir_of (g : gui) : string :=
  os_path.join (yolov7_dir g) ["runs"; "detect"].

Definition experiment_name : string := "GUI_exp".

(** The argument list of the child process. *)
Definition command_of (E : Env) (g : gui) (source : string) : list string :=
  [ sys_executable E; "detect.py";
    "--weights"; weights_path g;
    "--conf-thres"; "0.25";
    "--iou-thres"; "0.45";
    "--source"; source;
    "--project"; project_dir_of g;
    "--name"; experiment_name;
    "--exist-ok";
    "--save-txt";
    "--no-trace" ].

(** The message of the non-zero exit branch. *)
Definition exit_error_message (result : CompletedProcess) : string :=
  "Object detection failed (detect.py exited with code " ++
  str_int (returncode result) ++ ")." ++ nl ++ nl ++
  "Check console/terminal output for details." ++ nl ++
  (if (stderr result =? "")%string then ""
   else nl ++ "Error details:" ++ nl ++
        str_join " " (last_n 5 (splitlines (stderr result)))).

(** The body of the [try] of [detect_objects]: the calls it schedules, or the
    exception that leaves it, be it of the child process, of a [print] or of
    the fallback search. Nothing is scheduled before the last statement that
    can raise. [g] is the [self] the worker reads. *)
Definition detect_objects_try (E : Env) (g : gui)
  : py_result (list after_call) :=
  source <- match input_image_path g with
            | Some p => Ok p
            | None => Raise (Exception "TypeError"
                "expected str, bytes or os.PathLike object, not NoneType")
            end ;;
  let image_name := os_path.basename source in
  let project_dir := project_dir_of g in
  let command := command_of E g source in
  printed <- builtin_print E ("Running command: " ++ str_join " " command) ;;
  printed <- builtin_print E ("Working directory: " ++ yolov7_dir g) ;;
  result <- subprocess_run E command (yolov7_dir g) ;;
  printed <- builtin_print E (nl ++ "--- YOLOv7 detect.py stdout ---") ;;
  printed <- builtin_print E (stdout result) ;;
  printed <- (if (stderr result =? "")%string then Ok tt
              else
                printed <- builtin_print E
                             (nl ++ "--- YOLOv7 detect.py stderr ---") ;;
                builtin_print E (stderr result)) ;;
  if negb (returncode result =? 0) then
    Ok [after_showerror "Detection Error" (exit_error_message result)]
  else
    let output_path := os_path.join project_dir [experiment_name; image_name] in
    if os_path_exists E output_path then
      Ok [after_update_gui_post_detection (Some output_path) true]
    else
      printed <- builtin_print E
                   ("Warning: Expected output not found at " ++ output_path ++
                    ". Searching latest run...") ;;
      latest_run_path <- find_latest_run_output E project_dir image_name ;;
      let found :=
        match latest_run_path with
        | Some p => negb (p =? "")%string && os_path_exists E p
        | None => false
        end in
      if found then
        Ok [after_update_gui_post_detection latest_run_path true]
      else
        let err_msg :=
          "Output image could not be found." ++ nl ++
          "Expected: " ++ output_path ++ nl ++
          "Also checked latest runs in: " ++ project_dir in
        Ok [after_showerror "Error" err_msg;
            after_update_gui_post_detection None false].

(** [detect_objects(self)], with its two [except] clauses: the calls the
    worker has scheduled when it returns, or the exception that leaves it
    (and the thread) with nothing scheduled, which only the [print] of the
    second clause can raise. *)
Definition detect_objects (E : Env) (g : gui) : py_result (list after_call) :=
  match detect_objects_try E g with
  | Ok calls => Ok calls
  | Raise (FileNotFoundError _ as fnf_error) =>
      Ok [after_showerror "Execution Error"
            ("File not found during detection: " ++ str_exn fnf_error ++ "." ++ nl ++
             "Ensure '" ++ sys_executable E ++
             "' is runnable and 'detect.py' exists in " ++ yolov7_dir g ++ ".");
          after_update_gui_post_detection None false]
  | Raise (Exception _ _ as e) =>
      printed <- builtin_print E ("Full exception details: " ++ str_exn e) ;;
      Ok [after_showerror "Execution Error"
            ("An unexpected error occurred during detection:" ++ nl ++
             type_name e ++ ": " ++ str_exn e);
          after_update_gui_post_detection None false]
  end.

(** ** The main loop running what the worker scheduled *)

Definition run_after (E : Env) (w : world) (c : after_call) : world :=
  match c with
  | after_showerror title message => messagebox_showerror title message w
  | after_update_gui_post_detection output_path success =>
      update_gui_post_detection E output_path success w
  end.

Definition mainloop_runs (E : Env) (calls : list after_call) (w : world)
  : world :=
  fold_left (run_after E) calls w.

(** The widgets each thread started between [w0] and [w1] saw at its start. *)
Definition started_threads (w0 w1 : world) : list gui :=
  flat_map (fun e => match e with thread_start g => [g] | _ => [] end)
           (skipn (List.length (trace w0)) (trace w1)).

(** What the main loop sees of one worker: the callbacks it scheduled, or
    nothing when an exception ended the thread. *)
Definition worker_done (E_work E_done : Env) (w : world) (g : gui) : world :=
  match detect_objects E_work g with
  | Ok calls => mainloop_runs E_done calls w
  | Raise _ => w
  end.

(** One click on Detect and what follows from it: the click under [E_click];
    for the thread it starts, if any, the worker under [E_work] reading the
    widgets (nothing changes them while the buttons are disabled), then its
    callbacks on the main loop under [E_done]. *)
Definition detection_run (E_click E_work E_done : Env) (w : world) : world :=
  let w1 := start_detection_thread E_click w in
  fold_left (worker_done E_work E_done) (started_threads w w1) w1.

(** ** Properties the statements below are phrased with *)

(** [img] is no larger than [box] in either dimension. *)
Definition fits_in (box : Z * Z) (img : pil_image) : Prop :=
  im_width img <= fst box /\ im_height img <= snd box.

(** [out] has the proportions of [src] up to the rounding of one dimension to
    whole pixels: with [W x H] the source and [w x h] the output,
    [|w*H - h*W| < max W H], that is, the shorter side of the output is less
    than one pixel away from the exactly proportional length. *)
Definition same_ratio_within_rounding (src out : pil_image) : Prop :=
  Z.abs (im_width out * im_height src - im_height out * im_width src)
  < Z.max (im_width src) (im_height src).

(** What PIL documents of [Image.thumbnail]: applied to a proper image and a
    proper box it leaves a proper image, no larger than the box, of the same
    aspect. *)
Definition thumbnail_contract (E : Env) : Prop :=
  forall img box out,
    0 < im_width img -> 0 < im_height img -> 0 < fst box -> 0 < snd box ->
    image_thumbnail E img box = Ok out ->
    0 < im_width out /\ 0 < im_height out /\
    fits_in box out /\ same_ratio_within_rounding img out.



(** The statements of [start_detection_thread] after its two guards. *)
Definition prepare_and_start (w : world) : world :=
  w |> detect_button_config DISABLED
    |> browse_button_config DISABLED
    |> reset_button_config DISABLED
    |> info_label_config "Detecting objects, please wait..."
    |> label_config_image result_label None
    |> label_set_image result_label None
    |> label_set_original_image result_label None
    |> Thread_start.

(** ** The rest of the class: the confirmation dialog and the event bindings *)

(** [dialogue_msg(self, title, message)]; [confirmed] is what
    [messagebox.askyesno] returned. *)
Definition dialogue_msg (confirmed : bool) (w : world) : world :=
  if confirmed then reset_ui true w else w.

(** What the Tk main loop dispatches to the program, by the bindings of
    [build_widgets]: a click on one of the three buttons (for Browse, with
    the answer of the file dialog), a [<Configure>] of the frame around a
    label, and a call a worker handed to [root.after]. *)
Inductive ui_event : Type :=
| click_browse (file_path : string)
| click_detect
| click_reset
| configure (l : label_name)
| after_due (c : after_call).

(** Everything but a scheduled call comes from the user. *)
Definition is_user_event (ev : ui_event) : bool :=
  match ev with
  | after_due _ => false
  | _ => true
  end.

(** A [ttk.Button] runs its [command] only while its state is not
    [DISABLED]: [browse_image], [start_detection_thread] and [reset_ui] (with
    its default argument) for the three buttons. *)
Definition dispatch (E : Env) (w : world) (ev : ui_event) : world :=
  match ev with
  | click_browse file_path =>
      match browse_button (ui w) with
      | NORMAL => browse_image E file_path w
      | DISABLED => w
      end
  | click_detect =>
      match detect_button (ui w) with
      | NORMAL => start_detection_thread E w
      | DISABLED => w
      end
  | click_reset =>
      match reset_button (ui w) with
      | NORMAL => reset_ui true w
      | DISABLED => w
      end
  | configure l => on_configure E l w
  | after_due c => run_after E w c
  end.

(** [root.mainloop()] over a finite stretch of events, each met by the world
    as it stands when the event is dispatched. *)
Definition mainloop (events : list (Env * ui_event)) (w : world) : world :=
  fold_left (fun w' ev => dispatch (fst ev) w' (snd ev)) events w.

(** All three buttons are disabled. *)
Definition controls_disabled (g : gui) : Prop :=
  browse_button g = DISABLED /\
  detect_button g = DISABLED /\
  reset_button g = DISABLED.

(** What every reachable widget state keeps: Browse and Reset are enabled or
    disabled together, Detect is never enabled while they are disabled, and
    the two paths set at start-up stay as they were set. *)
Definition session_invariant (dir : string) (g : gui) : Prop :=
  browse_button g = reset_button g /\
  (browse_button g = DISABLED -> detect_button g = DISABLED) /\
  yolov7_dir g = dir /\
  weights_path g = os_path.join dir ["yolov7.pt"].

(** [d] has a readable timestamp that no member of [l] exceeds. *)
Definition latest_among (E : Env) (d : string) (l : list string) : Prop :=
  exists td, os_path_getmtime E d = Ok td /\
    forall x, In x l -> exists tx, os_path_getmtime E x = Ok tx /\ tx <= td.

(** Between [w] and [w'] nothing happened but a change of label [l]: no
    box, no thread, every other widget as it was. *)
Definition only_label_changed (l : label_name) (w w' : world) : Prop :=
  trace w' = trace w /\
  ui w' = with_label l (fun _ => get_label l (ui w')) (ui w).

(** ** A concrete world to run the model in *)

Definition ceil_div (a b : Z) : Z := - ((- a) / b).

(** The size [Image.thumbnail] of Pillow 7 and later settles on, in exact
    arithmetic: an image [W x H] asked to fit [x x y]. *)
Definition pillow_thumbnail_size (W H x y : Z) : Z * Z :=
  if (W <=? x) && (H <=? y) then (W, H)
  else if W * y <=? x * H then
    let f := (y * W) / H in
    let c := ceil_div (y * W) H in
    let n := if Z.abs (W * y - f * H) <=? Z.abs (W * y - c * H) then f else c in
    (Z.max n 1, y)
  else
    let f := (x * H) / W in
    let c := ceil_div (x * H) W in
    let n := if f =? 0 then f
             else if Z.abs (W * f - x * H) * c <=? Z.abs (W * c - x * H) * f
                  then f else c in
    (x, Z.max n 1).

Definition pillow_thumbnail (img : pil_image) (box : Z * Z)
  : py_result pil_image :=
  let '(w, h) :=
    pillow_thumbnail_size (im_width img) (im_height img) (fst box) (snd box) in
  Ok {| im_width := w; im_height := h |}.

Definition lookup {A : Type} (k : string) (table : list (string * A))
  : option A :=
  option_map snd (find (fun kv => (fst kv =? k)%string) table).

(** A world given by tables: the files with the images they decode to, the
    directories with their entries and timestamps, the size of both panels
    and what the child process does. *)
Record demo_world : Type := {
  demo_files : list (string * option pil_image);
  demo_dirs : list (string * (list string * Z));
  demo_panel : Z * Z;
  demo_process : py_result CompletedProcess
}.

Definition demo_env (d : demo_world) : Env :=
  {| sys_executable := "/usr/bin/python3";
     os_path_exists := fun p =>
       match lookup p (demo_files d), lookup p (demo_dirs d) with
       | None, None => false
       | _, _ => true
       end;
     os_path_isdir := fun p =>
       match lookup p (demo_dirs d) with Some _ => true | None => false end;
     os_path_isfile := fun p =>
       match lookup p (demo_files d) with Some _ => true | None => false end;
     os_listdir := fun p =>
       match lookup p (demo_dirs d) with
       | Some (names, _) => Ok names
       | None => Raise (FileNotFoundError p)
       end;
     os_path_getmtime := fun p =>
       match lookup p (demo_dirs d) with
       | Some (_, t) => Ok t
       | None => Raise (FileNotFoundError p)
       end;
     PILImage_open := fun p =>
       match lookup p (demo_files d) with
       | Some (Some img) => Ok img
       | Some None => Raise (Exception "UnidentifiedImageError" p)
       | None => Raise (FileNotFoundError p)
       end;
     image_thumbnail := pillow_thumbnail;
     photo_error := fun _ => None;
     winfo_size := fun _ => demo_panel d;
     subprocess_run := fun _ _ => demo_process d;
     builtin_print := fun _ => Ok tt |}.

(** [E] with another console. *)
Definition with_console (print : string -> py_result unit) (E : Env) : Env :=
  {| sys_executable := sys_executable E;
     os_path_exists := os_path_exists E;
     os_path_isdir := os_path_isdir E;
     os_path_isfile := os_path_isfile E;
     os_listdir := os_listdir E;
     os_path_getmtime := os_path_getmtime E;
     PILImage_open := PILImage_open E;
     image_thumbnail := image_thumbnail E;
     photo_error := photo_error E;
     winfo_size := winfo_size E;
     subprocess_run := subprocess_run E;
     builtin_print := print |}.





(** A console that was closed under the program. *)
Definition closed_console : Env -> Env :=
  with_console (fun _ =>
    Raise (Exception "ValueError" "I/O operation on closed file.")).



Definition cat : pil_image := {| im_width := 1920; im_height := 1080 |}.

Definition exited (code : Z) (err : string) : py_result CompletedProcess :=
  Ok {| returncode := code; stdout := ""; stderr := err |}.

(** The tool installed under [/opt/yolov7], an image picked, nothing run yet. *)
Definition demo_install (runs : list (string * (list string * Z)))
    (outputs : list (string * option pil_image))
    (proc : py_result CompletedProcess) : demo_world :=
  {| demo_files :=
       ("/home/u/cat.jpg", Some cat) ::
       ("/opt/yolov7/detect.py", None) ::
       ("/opt/yolov7/yolov7.pt", None) :: outputs;
     demo_dirs := ("/opt/yolov7", (["runs"], 5)) :: runs;
     demo_panel := (490, 410);
     demo_process := proc |}.

(** The session after start-up and the selection of [/home/u/cat.jpg]. *)
Definition demo_selected : world :=
  let E := demo_env (demo_install [] [] (exited 0 "")) in
  browse_image E "/home/u/cat.jpg" (YOLOv7GUI_init E "/opt/yolov7").

(** The run directories the tool may leave under [runs/detect], by name and
    timestamp, and the files in them. *)
Definition runs_detect : string := "/opt/yolov7/runs/detect".

Definition demo_runs (names : list (string * Z)) : list (string * (list string * Z)) :=
  (runs_detect, (map fst names, 7)) ::
  map (fun nt => (runs_detect ++ "/" ++ fst nt, ([], snd nt))) names.

(** The tool wrote where it was told to. *)
Definition world_expected : demo_world :=
  demo_install (demo_runs [("GUI_exp", 20)])
    [(runs_detect ++ "/GUI_exp/cat.jpg", Some cat)] (exited 0 "").

(** The tool wrote to a run directory of another name; older runs linger. *)
Definition world_renamed : demo_world :=
  demo_install (demo_runs [("GUI_exp", 8); ("GUI_exp2", 12); ("GUI_exp3", 10)])
    [(runs_detect ++ "/GUI_exp2/cat.jpg", Some cat);
     (runs_detect ++ "/GUI_exp3/cat.jpg", Some cat)] (exited 0 "").

(** The tool failed with exit code 1 and seven lines on standard error. *)
Definition world_failed : demo_world :=
  demo_install [] []
    (exited 1 ("Traceback (most recent call last):" ++ nl ++
               "  File detect.py, line 184" ++ nl ++
               "    detect()" ++ nl ++
               "  File detect.py, line 34" ++ nl ++
               "    model = attempt_load(weights)" ++ nl ++
               "RuntimeError: CUDA out of memory" ++ nl ++
               "exiting" ++ nl)).

(** The interpreter could not be run at all. *)
Definition world_crashed : demo_world :=
  demo_install [] [] (Raise (Exception "PermissionError" "denied")).

(** The selected file was deleted after it was picked. *)
Definition world_gone : demo_world :=
  {| demo_files := [("/opt/yolov7/detect.py", None)];
     demo_dirs := [("/opt/yolov7", (["runs"], 5))];
     demo_panel := (490, 410);
     demo_process := exited 0 "" |}.

(** The window squeezed until the panels are 15 pixels wide. *)
Definition world_squeezed : demo_world :=
  {| demo_files := [("/home/u/cat.jpg", Some cat)];
     demo_dirs := [];
     demo_panel := (15, 300);
     demo_process := exited 0 "" |}.

(** The session while the worker runs. *)
Definition demo_detecting : world :=
  start_detection_thread (demo_env (demo_install [] [] (exited 0 "")))
                         demo_selected.

(** Two run directories share the newest timestamp; only the one listed
    later holds the file. *)
Definition world_tied : demo_world :=
  demo_install (demo_runs [("GUI_exp", 8); ("GUI_exp2", 12); ("GUI_exp3", 12)])
    [(runs_detect ++ "/GUI_exp3/cat.jpg", Some cat)] (exited 0 "").

(** A picked file and an annotated image that are no images. *)
Definition world_corrupt : demo_world :=
  demo_install (demo_runs [("GUI_exp", 20)])
    [("/home/u/notes.jpg", None);
     (runs_detect ++ "/GUI_exp/cat.jpg", None)] (exited 0 "").

(** The tool without its default weights file. *)
Definition world_no_weights : demo_world :=
  {| demo_files := [("/home/u/cat.jpg", Some cat);
                    ("/opt/yolov7/detect.py", None)];
     demo_dirs := [("/opt/yolov7", (["runs"], 5))];
     demo_panel := (490, 410);
     demo_process := exited 0 "" |}.

(** The window enlarged. *)
Definition world_enlarged : demo_world :=
  {| demo_files := [("/home/u/cat.jpg", Some cat)];
     demo_dirs := [];
     demo_panel := (810, 610);
     demo_process := exited 0 "" |}.





(** An impatient user while the worker runs. *)
Definition demo_fidgeting : list (Env * ui_event) :=
  [(demo_env world_expected, click_browse "/home/u/cat.jpg");
   (demo_env world_expected, click_reset);
   (demo_env world_enlarged, configure input_label);
   (demo_env world_expected, click_detect)].

(** * Properties *)

(** ** Strings, lists and paths *)

Example splitlines_ex :
  splitlines ("a" ++ nl ++ nl ++ "bc" ++ nl) = ["a"; ""; "bc"].
Proof. reflexivity. Qed.

Example splitlines_boundaries :
  splitlines "" = [] /\
  splitlines nl = [""] /\
  splitlines ("a" ++ String (ascii_of_nat 13) nl ++ "b" ++
              String (ascii_of_nat 13) "c") = ["a"; "b"; "c"].
Proof. repeat split; reflexivity. Qed.

Example last_n_ex :
  last_n 5 [1; 2; 3; 4; 5; 6; 7] = [3; 4; 5; 6; 7] /\ last_n 5 [1; 2] = [1; 2].
Proof. split; reflexivity. Qed.

Example pillow_thumbnail_size_ex :
  pillow_thumbnail_size 1920 1080 480 400 = (480, 270) /\
  pillow_thumbnail_size 300 200 480 400 = (300, 200) /\
  pillow_thumbnail_size 10000 1 10 10 = (10, 1).
Proof. repeat split; reflexivity. Qed.

Example basename_ex : os_path.basename "/home/u/cat.jpg" = "cat.jpg".
Proof. reflexivity. Qed.

Example join_ex :
  os_path.join "/opt/yolov7" ["runs"; "detect"] = "/opt/yolov7/runs/detect".
Proof. reflexivity. Qed.

Example str_int_ex : str_int (-9) = "-9" /\ str_int 0 = "0" /\ str_int 120 = "120".
Proof. repeat split; reflexivity. Qed.




Lemma append_assoc (s t u : string) : (s ++ t) ++ u = s ++ (t ++ u).
Proof.
  induction s as [|c s IH]; [reflexivity|]. simpl. now rewrite IH.
Qed.

Module os_path_facts.
Import os_path.

Lemma endswith_sep_app (s : string) (c : ascii) (t : string) :
  endswith_sep (s ++ String c t) = endswith_sep (String c t).
Proof.
  induction s as [|a s IH]; [reflexivity|].
  change (endswith_sep (String a (s ++ String c t)) = endswith_sep (String c t)).
  destruct s; simpl in *; exact IH.
Qed.

Lemma app_not_empty (s : string) (c : ascii) (t : string) :
  (s ++ String c t =? "")%string = false.
Proof. destruct s; reflexivity. Qed.

Lemma has_sep_basename (p : string) : has_sep (basename p) = false.
Proof.
  induction p as [|c rest IH]; [reflexivity|].
  simpl. destruct (has_sep rest) eqn:Hrest; [exact IH|].
  destruct (Ascii.eqb c sep) eqn:Hc; [exact Hrest|].
  simpl. rewrite Hc, Hrest. reflexivity.
Qed.

Lemma startswith_sep_has_sep (s : string) :
  has_sep s = false -> startswith_sep s = false.
Proof.
  destruct s as [|c rest]; [reflexivity|]. simpl.
  destruct (Ascii.eqb c sep); [discriminate | reflexivity].
Qed.

(** Joining a component that does not start with a separator appends it, with
    a separator in between unless the path is empty or brings its own. *)
Lemma join2_relative (path b : string) :
  startswith_sep b = false ->
  join2 path b =
    if (path =? "")%string || endswith_sep path then path ++ b
    else path ++ "/" ++ b.
Proof. intros Hb. unfold join2. rewrite Hb. reflexivity. Qed.

Lemma join2_after_name (path : string) (c : ascii) (t b : string) :
  Ascii.eqb c sep = false ->
  endswith_sep (String c t) = false ->
  startswith_sep b = false ->
  join2 (path ++ String c t) b = path ++ String c t ++ "/" ++ b.
Proof.
  intros Hc Ht Hb. rewrite join2_relative by exact Hb.
  rewrite app_not_empty, endswith_sep_app, Ht. simpl.
  apply append_assoc.
Qed.


End os_path_facts.

(** ** The maximum by key *)

Section PyMax.
Variables (A : Type) (key : A -> py_result Z).

Lemma max_scan_keeps (l : list A) (best : A) (bk : Z) :
  (forall x, In x l -> exists k, key x = Ok k /\ k <= bk) ->
  max_scan key best bk l = Ok best.
Proof.
  induction l as [|x l IH]; intros Hl; [reflexivity|].
  destruct (Hl x (or_introl eq_refl)) as (k & Hk & Hle).
  simpl. rewrite Hk. simpl.
  destruct (Z.ltb_spec bk k); [lia|].
  apply IH. intros y Hy. apply Hl. now right.
Qed.

Lemma max_scan_reaches (pre post : list A) (d : A) (td : Z) :
  key d = Ok td ->
  (forall x, In x pre -> exists k, key x = Ok k /\ k < td) ->
  (forall x, In x post -> exists k, key x = Ok k /\ k <= td) ->
  forall best bk, bk < td ->
    max_scan key best bk (pre ++ d :: post)%list = Ok d.
Proof.
  intros Hd Hpre Hpost.
  induction pre as [|x pre IH]; intros best bk Hbk.
  - simpl. rewrite Hd. simpl.
    destruct (Z.ltb_spec bk td); [|lia].
    now apply max_scan_keeps.
  - destruct (Hpre x (or_introl eq_refl)) as (k & Hk & Hlt).
    simpl. rewrite Hk. simpl.
    assert (Hpre' : forall y, In y pre -> exists k, key y = Ok k /\ k < td)
      by (intros y Hy; apply Hpre; now right).
    destruct (bk <? k); now apply IH.
Qed.

(** [max] returns the first element whose key nothing before it reaches and
    nothing after it exceeds. *)
Lemma py_max_first_maximum (pre post : list A) (d : A) (td : Z) :
  key d = Ok td ->
  (forall x, In x pre -> exists k, key x = Ok k /\ k < td) ->
  (forall x, In x post -> exists k, key x = Ok k /\ k <= td) ->
  py_max (pre ++ d :: post)%list key = Ok d.
Proof.
  intros Hd Hpre Hpost. destruct pre as [|x pre].
  - simpl. rewrite Hd. simpl. now apply max_scan_keeps.
  - destruct (Hpre x (or_introl eq_refl)) as (k & Hk & Hlt).
    simpl. rewrite Hk. simpl.
    apply max_scan_reaches with (td := td); auto.
    intros y Hy. apply Hpre. now right.
Qed.

End PyMax.



(** ** Where the worker looks for the annotated image *)

Lemma project_dir_shape (g : gui) :
  exists y, project_dir_of g = y ++ "detect".
Proof.
  unfold project_dir_of, os_path.join. simpl.
  rewrite (os_path_facts.join2_relative _ "detect") by reflexivity.
  destruct (_ || _).
  - eexists. reflexivity.
  - eexists. rewrite <- append_assoc. reflexivity.
Qed.

Lemma project_dir_not_empty (g : gui) : project_dir_of g <> "".
Proof.
  destruct (project_dir_shape g) as (y & ->). destruct y; discriminate.
Qed.

(** The deterministic path is the base directory, the run name and the base
    name of the source, each followed by one separator. *)
Lemma expected_output_path (g : gui) (source : string) :
  os_path.join (project_dir_of g) [experiment_name; os_path.basename source]
  = project_dir_of g ++ "/" ++ experiment_name ++ "/" ++ os_path.basename source.
Proof.
  destruct (project_dir_shape g) as (y & ->).
  unfold os_path.join, experiment_name. simpl.
  rewrite (os_path_facts.join2_after_name y "d" "etect" "GUI_exp")
    by reflexivity.
  replace (y ++ "detect" ++ "/" ++ "GUI_exp")
    with ((y ++ "detect/") ++ "GUI_exp")
    by (rewrite append_assoc; reflexivity).
  rewrite os_path_facts.join2_after_name; try reflexivity.
  - rewrite !append_assoc. reflexivity.
  - apply os_path_facts.startswith_sep_has_sep, os_path_facts.has_sep_basename.
Qed.



(** ** What the worker hands to the main loop *)





(** The main loop re-enables Browse and Reset whenever it runs
    [update_gui_post_detection], whatever the arguments. *)
Lemma update_gui_post_detection_enables (E : Env) (output_path : option string)
    (success : bool) (w : world) :
  browse_button (ui (update_gui_post_detection E output_path success w)) = NORMAL /\
  reset_button (ui (update_gui_post_detection E output_path success w)) = NORMAL.
Proof. split; reflexivity. Qed.

Lemma append_empty (s : string) : s ++ "" = s.
Proof. induction s; simpl; congruence. Qed.

(** C9, as amended. An exception that leaves the [try] body of the worker
    reaches the user whenever the handler gets as far as scheduling: always
    for a [FileNotFoundError], and for any other exception when the [print]
    that logs it goes through. Then the worker returns normally, having
    scheduled an error box that carries the text of the exception and then
    [update_gui_post_detection(None, False)]; once the main loop has run the
    two, the error is on screen and Browse and Reset are enabled. *)
Theorem detect_objects_exception_reaches_ui (E E_done : Env) (g : gui)
    (e : exn) (w : world) :
  detect_objects_try E g = Raise e ->
  (exists s, e = FileNotFoundError s) \/
  builtin_print E ("Full exception details: " ++ str_exn e) = Ok tt ->
  exists before after : string,
    let message := before ++ str_exn e ++ after in
    let calls := [after_showerror "Execution Error" message;
                  after_update_gui_post_detection None false] in
    detect_objects E g = Ok calls /\
    In (showerror "Execution Error" message)
       (trace (mainloop_runs E_done calls w)) /\
    browse_button (ui (mainloop_runs E_done calls w)) = NORMAL /\
    reset_button (ui (mainloop_runs E_done calls w)) = NORMAL.
Proof.
  intros Hraise Hlogged. unfold detect_objects. rewrite Hraise.
  destruct e as [s | cls s].
  - exists "File not found during detection: ".
    exists ("." ++ nl ++ "Ensure '" ++ sys_executable E ++
            "' is runnable and 'detect.py' exists in " ++ yolov7_dir g ++ ".").
    cbv zeta. split; [reflexivity|]. split; [|split; reflexivity].
    simpl. apply in_or_app. right. now left.
  - destruct Hlogged as [(s' & Hfnf) | Hprint]; [discriminate Hfnf|].
    rewrite Hprint. cbn [py_bind].
    exists ("An unexpected error occurred during detection:" ++ nl ++
            cls ++ ": "), "".
    cbv zeta. cbn [type_name str_exn].
    rewrite !append_assoc, append_empty.
    split; [reflexivity|]. split; [|split; reflexivity].
    simpl. apply in_or_app. right. now left.
Qed.

(** ** The panels *)

(** C6. In a panel narrower or lower than 20 pixels [update_label_image]
    returns normally without touching anything: no exception, no new bitmap,
    the label and every other widget as before; the same holds for the
    [<Configure>] callback built on it. *)
Theorem update_label_image_skips_small_panel (E : Env) (l : label_name)
    (w : world) (width height : Z) :
  winfo_size E l = (width, height) ->
  width < 20 \/ height < 20 ->
  update_label_image E l w = Ok w /\ on_configure E l w = w.
Proof.
  intros Hsize Hsmall.
  assert (H : update_label_image E l w = Ok w).
  { unfold update_label_image.
    destruct (original_image (get_label l (ui w))); [|reflexivity].
    rewrite Hsize.
    replace ((width <? 20) || (height <? 20)) with true; [reflexivity|].
    symmetry. apply orb_true_iff.
    destruct Hsmall; [left | right]; now apply Z.ltb_lt. }
  split; [exact H|]. unfold on_configure. now rewrite H.
Qed.

Lemma get_label_config_then_set (l : label_name) (p : option photo) (w : world) :
  get_label l (ui (w |> label_config_image l p |> label_set_image l p))
  = {| config_image := p; image := p;
       original_image := original_image (get_label l (ui w)) |}.
Proof. destruct l; reflexivity. Qed.

(** C5. In a panel of at least 20 by 20 pixels, with a PIL whose [thumbnail]
    keeps its documented contract, rendering a loaded image shows a bitmap
    that is the thumbnail of the unscaled original for the box
    [(width - 10, height - 10)]: both its sides fit the panel less the margin
    of 10, and its proportions are those of the original up to the rounding
    of one side to whole pixels. *)
Theorem update_label_image_fits_panel_and_keeps_ratio (E : Env)
    (l : label_name) (w : world) (orig out : pil_image) (width height : Z) :
  thumbnail_contract E ->
  original_image (get_label l (ui w)) = Some orig ->
  0 < im_width orig -> 0 < im_height orig ->
  winfo_size E l = (width, height) ->
  20 <= width -> 20 <= height ->
  image_thumbnail E orig (width - 10, height - 10) = Ok out ->
  photo_error E out = None ->
  exists w' bitmap,
    update_label_image E l w = Ok w' /\
    get_label l (ui w') =
      {| config_image := Some bitmap; image := Some bitmap;
         original_image := Some orig |} /\
    0 < photo_width bitmap <= width - 10 /\
    0 < photo_height bitmap <= height - 10 /\
    same_ratio_within_rounding orig (let 'PhotoImage i := bitmap in i).
Proof.
  intros Hpil Horig HW HH Hsize Hw Hh Hthumb Hphoto.
  destruct (Hpil orig (width - 10, height - 10) out) as (Hw0 & Hh0 & [Hfw Hfh] & Hratio);
    simpl; try lia; try assumption.
  exists (w |> label_config_image l (Some (PhotoImage out))
            |> label_set_image l (Some (PhotoImage out))), (PhotoImage out).
  split; [|split; [|split; [|split]]].
  - unfold update_label_image. rewrite Horig, Hsize.
    destruct (Z.ltb_spec width 20); [lia|].
    destruct (Z.ltb_spec height 20); [lia|]. simpl.
    rewrite Hthumb. simpl. rewrite Hphoto. reflexivity.
  - rewrite get_label_config_then_set, Horig. reflexivity.
  - simpl in *. lia.
  - simpl in *. lia.
  - exact Hratio.
Qed.

(** ** Reset *)

(** C8. From any state [reset_ui()] leaves the widgets as start-up built
    them: no remembered source path, both panels empty, the start-up text,
    Detect disabled, Browse and Reset enabled. [reset_ui(clear_input=False)]
    keeps the remembered source path, the input panel and the text, and of
    the panels empties the result panel only; it enables Browse and Reset,
    and Detect when a source path is remembered. Neither shows a message or
    starts a thread. *)
Theorem reset_ui_effect (w : world) :
  (let g := ui (reset_ui true w) in
   input_image_path g = None /\
   input_image_label g = empty_label /\
   result_image_label g = empty_label /\
   info_label g = info_label (built_widgets (yolov7_dir (ui w))) /\
   detect_button g = detect_button (built_widgets (yolov7_dir (ui w))) /\
   browse_button g = browse_button (built_widgets (yolov7_dir (ui w))) /\
   reset_button g = reset_button (built_widgets (yolov7_dir (ui w))) /\
   yolov7_dir g = yolov7_dir (ui w) /\
   weights_path g = weights_path (ui w) /\
   trace (reset_ui true w) = trace w) /\
  (let g := ui (reset_ui false w) in
   input_image_path g = input_image_path (ui w) /\
   input_image_label g = input_image_label (ui w) /\
   result_image_label g = empty_label /\
   info_label g = info_label (ui w) /\
   browse_button g = NORMAL /\
   reset_button g = NORMAL /\
   detect_button g =
     (if truthy (input_image_path (ui w)) then NORMAL
      else detect_button (ui w)) /\
   yolov7_dir g = yolov7_dir (ui w) /\
   weights_path g = weights_path (ui w) /\
   trace (reset_ui false w) = trace w).
Proof.
  split.
  - repeat split; reflexivity.
  - unfold reset_ui. cbv zeta. simpl negb. simpl andb.
    destruct (truthy _); repeat split; reflexivity.
Qed.

(** ** Triggering detection *)

(** The setup check answers [True] exactly when the tool directory and its
    [detect.py] are there; it changes no widget and shows at most one box, a
    warning. *)
Lemma check_yolov7_setup_effect (E : Env) (w : world) :
  exists shown : list event,
    fst (check_yolov7_setup E w) =
      os_path_isdir E (yolov7_dir (ui w)) &&
      os_path_isfile E (os_path.join (yolov7_dir (ui w)) ["detect.py"]) /\
    snd (check_yolov7_setup E w) =
      {| ui := ui w; trace := (trace w ++ shown)%list |} /\
    (List.length shown <= 1)%nat /\
    (fst (check_yolov7_setup E w) = false -> List.length shown = 1%nat) /\
    forall e, In e shown -> exists t m, e = showwarning t m.
Proof.
  unfold check_yolov7_setup.
  set (dir_ok := os_path_isdir E _).
  set (script_ok := os_path_isfile E (os_path.join _ _)).
  set (weights_ok := os_path_isfile E (weights_path _)).
  destruct dir_ok, script_ok, weights_ok.
  1: exists []; rewrite app_nil_r; destruct w.
  2-8: eexists [_].
  all: split; [reflexivity|]; split; [reflexivity|]; split; [simpl; lia|].
  all: split; [try reflexivity; discriminate|].
  all: intros e He; simpl in He.
  all: try (destruct He as [<-|[]]; eauto).
  destruct He.
Qed.

Lemma started_threads_accepted (w : world) (warnings : list event) :
  (forall e, In e warnings -> exists t m, e = showwarning t m) ->
  let w1 := prepare_and_start
              {| ui := ui w; trace := (trace w ++ warnings)%list |} in
  started_threads w w1 = [ui w1].
Proof.
  intros Hwarn. unfold started_threads, prepare_and_start. simpl.
  rewrite <- app_assoc, skipn_app, skipn_all, Nat.sub_diag. simpl.
  rewrite flat_map_app. simpl.
  replace (flat_map _ warnings) with (@nil gui); [reflexivity|].
  symmetry. clear -Hwarn. induction warnings as [|e l IH]; [reflexivity|].
  simpl. destruct (Hwarn e (or_introl eq_refl)) as (t & m & ->). simpl.
  apply IH. intros e' He'. apply Hwarn. now right.
Qed.


(** One statement of the [try] body that went through. *)
Ltac passed H :=
  match type of H with
  | py_bind ?c _ = Ok _ =>
      let Hc := fresh "Hstep" in
      destruct c eqn:Hc; cbn [py_bind] in H; [|discriminate H]
  end.

(** What the [try] body has scheduled when it ends without an exception. *)
Lemma detect_objects_try_ok (E : Env) (g : gui) (calls : list after_call) :
  detect_objects_try E g = Ok calls ->
  exists source result,
    input_image_path g = Some source /\
    subprocess_run E (command_of E g source) (yolov7_dir g) = Ok result /\
    ((returncode result <> 0 /\
      calls = [after_showerror "Detection Error" (exit_error_message result)]) \/
     (returncode result = 0 /\
      os_path_exists E
        (os_path.join (project_dir_of g)
                      [experiment_name; os_path.basename source]) = true /\
      calls = [after_update_gui_post_detection
                 (Some (os_path.join (project_dir_of g)
                          [experiment_name; os_path.basename source])) true]) \/
     (returncode result = 0 /\
      exists p,
        find_latest_run_output E (project_dir_of g) (os_path.basename source)
        = Ok (Some p) /\
        p <> "" /\ os_path_exists E p = true /\
        calls = [after_update_gui_post_detection (Some p) true]) \/
     (returncode result = 0 /\
      exists title message,
        calls = [after_showerror title message;
                 after_update_gui_post_detection None false])).
Proof.
  unfold detect_objects_try. intros Htry.
  destruct (input_image_path g) as [source|]; cbn [py_bind] in Htry;
    [|discriminate Htry].
  do 3 passed Htry. rename Hstep1 into Hrun. do 3 passed Htry.
  match type of Hrun with _ = Ok ?r => exists source, r end.
  split; [reflexivity|]. split; [exact Hrun|].
  match type of Htry with
  | context [Z.eqb ?c 0] => destruct (Z.eqb_spec c 0) as [Hz|Hnz]
  end; cbn [negb] in Htry.
  2:{ left. injection Htry as <-. now split. }
  right. cbv zeta in Htry.
  destruct (os_path_exists E _) eqn:Hex.
  { left. injection Htry as <-. now repeat split. }
  right. do 2 passed Htry.
  match type of Htry with
  | (if ?c then _ else _) = _ => destruct c eqn:Hfound
  end; injection Htry as <-.
  - left. split; [exact Hz|].
    match type of Hfound with
    | match ?o with _ => _ end = true => destruct o as [p|]
    end; [|discriminate Hfound].
    apply andb_true_iff in Hfound. destruct Hfound as [Hne Hp].
    exists p. repeat split; try assumption.
    intros ->. discriminate Hne.
  - right. split; [exact Hz|]. eauto.
Qed.


(** *** A click that passes both guards *)

Section AcceptedClick.

Variables (E : Env) (w : world) (source : string).
Hypothesis Hsrc : input_image_path (ui w) = Some source.
Hypothesis Hne : source <> "".
Hypothesis Hex : os_path_exists E source = true.
Hypothesis Hdir : os_path_isdir E (yolov7_dir (ui w)) = true.
Hypothesis Hscript :
  os_path_isfile E (os_path.join (yolov7_dir (ui w)) ["detect.py"]) = true.

Lemma start_detection_thread_accepted :
  exists warnings : list event,
    (forall e, In e warnings -> exists t m, e = showwarning t m) /\
    start_detection_thread E w
    = prepare_and_start {| ui := ui w; trace := (trace w ++ warnings)%list |}.
Proof.
  destruct (check_yolov7_setup_effect E w) as (shown & Hok & Hw & _ & _ & Hwarn).
  rewrite Hdir, Hscript in Hok. simpl in Hok.
  unfold start_detection_thread. rewrite Hsrc, Hex.
  apply String.eqb_neq in Hne. rewrite Hne. simpl.
  destruct (check_yolov7_setup E w) as [ok w1]. simpl in Hok, Hw. subst ok w1.
  exists shown. split; [exact Hwarn | reflexivity].
Qed.

Lemma start_detection_thread_accepted_ui :
  ui (start_detection_thread E w) = ui (prepare_and_start w).
Proof.
  destruct start_detection_thread_accepted as (warnings & _ & ->).
  reflexivity.
Qed.

(** An accepted click is followed by exactly one worker run, on the widgets
    the click left, and by the callbacks of that run, if it scheduled any. *)
Lemma detection_run_accepted (E_work E_done : Env) :
  detection_run E E_work E_done w
  = worker_done E_work E_done (start_detection_thread E w)
                (ui (prepare_and_start w)).
Proof.
  unfold detection_run. cbv zeta.
  rewrite <- start_detection_thread_accepted_ui.
  destruct start_detection_thread_accepted as (warnings & Hwarn & ->).
  rewrite (started_threads_accepted w warnings Hwarn). reflexivity.
Qed.



End AcceptedClick.

(** C7. A click on Detect with an image selected, the file still there and
    the setup check passed ends with the start of the worker thread, and the
    widgets at that very moment (hence before the worker runs and before any
    outcome) already have Detect, Browse and Reset disabled and the result
    panel empty; before the start nothing but setup warnings was shown. *)
Theorem start_detection_thread_prepares_before_start (E : Env) (w : world)
    (source : string) :
  input_image_path (ui w) = Some source ->
  source <> "" ->
  os_path_exists E source = true ->
  os_path_isdir E (yolov7_dir (ui w)) = true ->
  os_path_isfile E (os_path.join (yolov7_dir (ui w)) ["detect.py"]) = true ->
  exists (warnings : list event) (g : gui),
    trace (start_detection_thread E w)
    = (trace w ++ warnings ++ [thread_start g])%list /\
    (forall e, In e warnings -> exists t m, e = showwarning t m) /\
    detect_button g = DISABLED /\
    browse_button g = DISABLED /\
    reset_button g = DISABLED /\
    result_image_label g = empty_label /\
    input_image_path g = Some source /\
    ui (start_detection_thread E w) = g.
Proof.
  intros Hsrc Hne Hex Hdir Hscript.
  destruct (start_detection_thread_accepted E w Hsrc Hne Hex Hdir Hscript)
    as (warnings & Hwarn & ->).
  eexists warnings, _. split.
  - simpl. rewrite <- app_assoc. reflexivity.
  - split; [exact Hwarn|]. repeat split; try reflexivity. exact Hsrc.
Qed.

(** C10. A click on Detect with no image selected, with the selected file
    gone, or with the tool directory or its [detect.py] missing changes no
    widget and starts no thread: it shows one box, an error or a warning,
    and returns. *)
Theorem start_detection_thread_rejected_is_noop (E : Env) (w : world) :
  truthy (input_image_path (ui w)) = false \/
  (exists p, input_image_path (ui w) = Some p /\ os_path_exists E p = false) \/
  os_path_isdir E (yolov7_dir (ui w)) = false \/
  os_path_isfile E (os_path.join (yolov7_dir (ui w)) ["detect.py"]) = false ->
  exists title message,
    ui (start_detection_thread E w) = ui w /\
    (trace (start_detection_thread E w)
       = (trace w ++ [showerror title message])%list \/
     trace (start_detection_thread E w)
       = (trace w ++ [showwarning title message])%list).
Proof.
  intros Hcase. unfold start_detection_thread.
  destruct (match input_image_path (ui w) with
            | Some p => negb (p =? "")%string && os_path_exists E p
            | None => false
            end) eqn:Hvalid; simpl.
  - (* the first guard passes: the setup check must be what fails *)
    assert (Hsetup : fst (check_yolov7_setup E w) = false).
    { destruct (check_yolov7_setup_effect E w) as (_ & -> & _).
      destruct Hcase as [Hn | [(p & Hp & Hex) | [Hd | Hs]]].
      - destruct (input_image_path (ui w)) as [p|]; [|discriminate].
        simpl in Hn. rewrite Hn in Hvalid. discriminate.
      - rewrite Hp, Hex, andb_false_r in Hvalid. discriminate.
      - now rewrite Hd.
      - rewrite Hs. apply andb_false_r. }
    destruct (check_yolov7_setup_effect E w)
      as (shown & _ & Hw & _ & Hone & Hwarn).
    specialize (Hone Hsetup).
    destruct (check_yolov7_setup E w) as [ok w1]. simpl in Hsetup, Hw.
    subst ok w1. simpl.
    destruct shown as [|e [|? ?]]; try discriminate.
    destruct (Hwarn e (or_introl eq_refl)) as (t & m & ->).
    exists t, m. split; [reflexivity | now right].
  - do 2 eexists. split; [reflexivity | left; reflexivity].
Qed.

(** ** The concrete world *)

Lemma floor_bounds (a b : Z) : 0 < b -> b * (a / b) <= a < b * (a / b) + b.
Proof.
  intros Hb. pose proof (Z.mul_div_le a b Hb).
  pose proof (Z.mul_succ_div_gt a b Hb). lia.
Qed.

Lemma ceil_bounds (a b : Z) : 0 < b -> a <= b * ceil_div a b < a + b.
Proof.
  intros Hb. unfold ceil_div. pose proof (floor_bounds (- a) Hb). lia.
Qed.

(** Pillow's size computation keeps the contract asked of [thumbnail]. *)
Lemma pillow_thumbnail_size_contract (W H x y : Z) :
  0 < W -> 0 < H -> 0 < x -> 0 < y ->
  let '(w, h) := pillow_thumbnail_size W H x y in
  0 < w <= x /\ 0 < h <= y /\ Z.abs (w * H - h * W) < Z.max W H.
Proof.
  intros HW HH Hx Hy. unfold pillow_thumbnail_size.
  destruct ((W <=? x) && (H <=? y)) eqn:Hfit.
  - apply andb_true_iff in Hfit. destruct Hfit as [Hwx Hhy].
    apply Z.leb_le in Hwx, Hhy. lia.
  - destruct (Z.leb_spec (W * y) (x * H)) as [Hwide|Htall]; cbv zeta.
    + pose proof (floor_bounds (y * W) HH) as Hf.
      pose proof (ceil_bounds (y * W) HH) as Hc.
      set (f := y * W / H) in *. set (c := ceil_div (y * W) H) in *.
      assert (0 <= f) by nia. assert (1 <= c) by nia. assert (c <= x) by nia.
      assert (f <= c) by nia.
      destruct (Z.abs (W * y - f * H) <=? Z.abs (W * y - c * H)).
      * destruct (Z.eq_dec f 0) as [Hf0|Hf0].
        -- rewrite Hf0 in *. simpl Z.max. lia.
        -- rewrite Z.max_l by lia. lia.
      * rewrite Z.max_l by lia. lia.
    + pose proof (floor_bounds (x * H) HW) as Hf.
      pose proof (ceil_bounds (x * H) HW) as Hc.
      set (f := x * H / W) in *. set (c := ceil_div (x * H) W) in *.
      assert (0 <= f) by nia. assert (1 <= c) by nia. assert (c <= y) by nia.
      assert (f <= c) by nia.
      destruct (Z.eqb_spec f 0) as [Hf0|Hf0].
      * rewrite Hf0 in *. simpl Z.max. lia.
      * destruct (Z.abs (W * f - x * H) * c <=? Z.abs (W * c - x * H) * f);
          rewrite Z.max_l by lia; lia.
Qed.

Lemma demo_env_thumbnail_contract (d : demo_world) :
  thumbnail_contract (demo_env d).
Proof.
  intros img [x y] out HW HH Hx Hy. simpl in *. unfold pillow_thumbnail. simpl.
  pose proof (pillow_thumbnail_size_contract HW HH Hx Hy) as Hc.
  destruct (pillow_thumbnail_size (im_width img) (im_height img) x y) as [w h].
  intros [= <-]. unfold fits_in, same_ratio_within_rounding. simpl. lia.
Qed.

(** ** The statements above at work in the concrete world *)




Lemma detect_objects_exception_reaches_ui_witness :
  exists before after : string,
    let message := before ++ "denied" ++ after in
    let calls := [after_showerror "Execution Error" message;
                  after_update_gui_post_detection None false] in
    detect_objects (demo_env world_crashed) (ui demo_detecting) = Ok calls /\
    In (showerror "Execution Error" message)
       (trace (mainloop_runs (demo_env world_crashed) calls demo_detecting)) /\
    browse_button
      (ui (mainloop_runs (demo_env world_crashed) calls demo_detecting))
    = NORMAL /\
    reset_button
      (ui (mainloop_runs (demo_env world_crashed) calls demo_detecting))
    = NORMAL.
Proof.
  apply (@detect_objects_exception_reaches_ui
           (demo_env world_crashed) (demo_env world_crashed)
           (ui demo_detecting) (Exception "PermissionError" "denied")
           demo_detecting);
    [reflexivity | right; reflexivity].
Defined.




(** C9 as it was stated fails. The console was closed under the program, so
    that every [print] raises [ValueError]: the first [print] of the [try]
    body raises, the handler catches that exception, and its own [print]
    raises before anything is scheduled. The exception leaves the worker
    thread, no callback ever runs, no box is shown, and Browse, Reset and
    Detect stay as the click left them, disabled. *)
Lemma detect_objects_exception_lost_to_print :
  let E := closed_console (demo_env world_expected) in
  let closed := Exception "ValueError" "I/O operation on closed file." in
  let w := detection_run E E E demo_selected in
  detect_objects_try E (ui demo_detecting) = Raise closed /\
  detect_objects E (ui demo_detecting) = Raise closed /\
  ui (start_detection_thread E demo_selected) = ui demo_detecting /\
  w = start_detection_thread E demo_selected /\
  browse_button (ui w) = DISABLED /\
  reset_button (ui w) = DISABLED /\
  detect_button (ui w) = DISABLED.
Proof.
  cbv zeta. do 6 (split; [vm_compute; reflexivity|]). vm_compute. reflexivity.
Qed.

Lemma update_label_image_fits_panel_and_keeps_ratio_witness :
  exists w' bitmap,
    update_label_image (demo_env world_expected) input_label demo_selected
    = Ok w' /\
    get_label input_label (ui w') =
      {| config_image := Some bitmap; image := Some bitmap;
         original_image := Some cat |} /\
    0 < photo_width bitmap <= 490 - 10 /\
    0 < photo_height bitmap <= 410 - 10 /\
    same_ratio_within_rounding cat (let 'PhotoImage i := bitmap in i).
Proof.
  apply (@update_label_image_fits_panel_and_keeps_ratio
           (demo_env world_expected) input_label demo_selected cat
           {| im_width := 480; im_height := 270 |} 490 410);
    try reflexivity; try (simpl; lia).
  apply demo_env_thumbnail_contract.
Defined.

Lemma update_label_image_skips_small_panel_witness :
  update_label_image (demo_env world_squeezed) input_label demo_selected
  = Ok demo_selected /\
  on_configure (demo_env world_squeezed) input_label demo_selected
  = demo_selected.
Proof.
  apply (@update_label_image_skips_small_panel
           (demo_env world_squeezed) input_label demo_selected 15 300);
    [reflexivity | left; lia].
Defined.

Lemma start_detection_thread_prepares_before_start_witness :
  exists (warnings : list event) (g : gui),
    trace (start_detection_thread (demo_env world_expected) demo_selected)
    = (trace demo_selected ++ warnings ++ [thread_start g])%list /\
    (forall e, In e warnings -> exists t m, e = showwarning t m) /\
    detect_button g = DISABLED /\
    browse_button g = DISABLED /\
    reset_button g = DISABLED /\
    result_image_label g = empty_label /\
    input_image_path g = Some "/home/u/cat.jpg" /\
    ui (start_detection_thread (demo_env world_expected) demo_selected) = g.
Proof.
  apply (@start_detection_thread_prepares_before_start
           (demo_env world_expected) demo_selected "/home/u/cat.jpg");
    [reflexivity | discriminate | reflexivity | reflexivity | reflexivity].
Defined.

Lemma start_detection_thread_rejected_is_noop_witness :
  exists title message,
    ui (start_detection_thread (demo_env world_gone) demo_selected)
    = ui demo_selected /\
    (trace (start_detection_thread (demo_env world_gone) demo_selected)
       = (trace demo_selected ++ [showerror title message])%list \/
     trace (start_detection_thread (demo_env world_gone) demo_selected)
       = (trace demo_selected ++ [showwarning title message])%list).
Proof.
  apply (@start_detection_thread_rejected_is_noop
           (demo_env world_gone) demo_selected).
  right. left. exists "/home/u/cat.jpg". split; reflexivity.
Defined.

(** C1, at a failing input. The image [/home/u/cat.jpg] is selected, the
    click on Detect is accepted, and [detect.py] exits with code 1: the only
    callback is the error box, and the run ends with Browse, Reset and Detect
    still disabled. *)
Theorem detection_run_exit_1_leaves_controls_disabled :
  let E := demo_env world_failed in
  let w := detection_run E E E demo_selected in
  browse_button (ui demo_selected) = NORMAL /\
  reset_button (ui demo_selected) = NORMAL /\
  (exists m, detect_objects E (ui demo_detecting)
             = Ok [after_showerror "Detection Error" m]) /\
  browse_button (ui w) = DISABLED /\
  reset_button (ui w) = DISABLED /\
  detect_button (ui w) = DISABLED.
Proof.
  cbv zeta. split; [reflexivity|]. split; [reflexivity|].
  split; [eexists; reflexivity|].
  repeat split; vm_compute; reflexivity.
Qed.

(** * Further properties of the code *)

(** ** The fallback search *)

Section PyMaxSound.
Variables (A : Type) (key : A -> py_result Z).

Lemma max_scan_sound (l : list A) : forall (best : A) (bk : Z) (d : A),
  key best = Ok bk ->
  max_scan key best bk l = Ok d ->
  (d = best \/ In d l) /\
  exists kd, key d = Ok kd /\ bk <= kd /\
    forall x, In x l -> exists k, key x = Ok k /\ k <= kd.
Proof.
  induction l as [|x l IH]; intros best bk d Hbest Hscan.
  - injection Hscan as <-. split; [now left|].
    exists bk. repeat split; [exact Hbest | lia | intros x []].
  - simpl in Hscan. destruct (key x) as [k|e] eqn:Hk; [|discriminate].
    simpl in Hscan. destruct (Z.ltb_spec bk k) as [Hlt|Hge].
    + destruct (IH x k d Hk Hscan) as ([->|Hin] & kd & Hd & Hle & Hall).
      * split; [right; now left|]. exists kd.
        repeat split; [exact Hd | lia |].
        intros y [<-|Hy]; [exists k; split; [exact Hk | lia] | now apply Hall].
      * split; [right; now right|]. exists kd.
        repeat split; [exact Hd | lia |].
        intros y [<-|Hy]; [exists k; split; [exact Hk | lia] | now apply Hall].
    + destruct (IH best bk d Hbest Hscan) as (Hwhere & kd & Hd & Hle & Hall).
      split; [destruct Hwhere; [now left | right; now right]|].
      exists kd. repeat split; [exact Hd | exact Hle |].
      intros y [<-|Hy]; [exists k; split; [exact Hk | lia] | now apply Hall].
Qed.

(** What [max] returns is a member whose key no member exceeds. *)
Lemma py_max_sound (l : list A) (d : A) :
  py_max l key = Ok d ->
  In d l /\
  exists kd, key d = Ok kd /\
    forall x, In x l -> exists k, key x = Ok k /\ k <= kd.
Proof.
  destruct l as [|x l]; [discriminate|]. simpl.
  destruct (key x) as [k|e] eqn:Hk; [|discriminate]. simpl. intros Hscan.
  destruct (max_scan_sound l Hk Hscan) as (Hwhere & kd & Hd & Hle & Hall).
  split; [destruct Hwhere; [now left | now right]|].
  exists kd. split; [exact Hd|].
  intros y [<-|Hy]; [exists k; now split | now apply Hall].
Qed.



End PyMaxSound.

(** X3. Whatever [find_latest_run_output] returns is a file that exists,
    named [image_name], in a subdirectory of [project_dir] that was listed
    and whose timestamp no other listed subdirectory exceeds. *)
Theorem find_latest_run_output_sound (E : Env)
    (project_dir image_name p : string) :
  find_latest_run_output E project_dir image_name = Ok (Some p) ->
  exists names d,
    os_listdir E project_dir = Ok names /\
    In d (sub_dirs_of E project_dir names) /\
    latest_among E d (sub_dirs_of E project_dir names) /\
    p = os_path.join d [image_name] /\
    os_path_exists E p = true.
Proof.
  unfold find_latest_run_output. cbv zeta.
  destruct (os_listdir E project_dir) as [names|e]; cbn [py_bind];
    [|destruct (builtin_print E _) as [[]|]; discriminate].
  destruct (sub_dirs_of E project_dir names) as [|x l] eqn:Hsub;
    [discriminate|].
  destruct (py_max (x :: l) (os_path_getmtime E)) as [d|e] eqn:Hmax;
    cbn [py_bind];
    [|destruct (builtin_print E _) as [[]|]; discriminate].
  destruct (os_path_exists E (os_path.join d [image_name])) eqn:Hex;
    [|discriminate].
  intros [= <-]. exists names, d. rewrite Hsub.
  destruct (py_max_sound _ _ Hmax) as (Hin & kd & Hd & Hall).
  repeat split; try assumption. exists kd. now split.
Qed.



(** X5. Among subdirectories with the same, newest timestamp the one listed
    first is searched, and only that one: if it lacks the file the search
    finds nothing, whatever the later ones hold. *)
Theorem find_latest_run_output_first_of_equals (E : Env)
    (project_dir image_name : string) (names : list string)
    (before after : list string) (d : string) (td : Z) :
  os_listdir E project_dir = Ok names ->
  sub_dirs_of E project_dir names = (before ++ d :: after)%list ->
  os_path_getmtime E d = Ok td ->
  (forall x, In x before -> exists t, os_path_getmtime E x = Ok t /\ t < td) ->
  (forall x, In x after -> exists t, os_path_getmtime E x = Ok t /\ t <= td) ->
  find_latest_run_output E project_dir image_name =
    Ok (if os_path_exists E (os_path.join d [image_name])
        then Some (os_path.join d [image_name]) else None).
Proof.
  intros Hls Hsub Hd Hbefore Hafter. unfold find_latest_run_output.
  rewrite Hls. cbn [py_bind]. rewrite Hsub.
  rewrite (py_max_first_maximum (os_path_getmtime E) before after d Hd
             Hbefore Hafter).
  destruct before; reflexivity.
Qed.

(** ** The shapes of what the worker schedules *)

Module os_path_more.
Import os_path.

Lemma basename_no_sep (b : string) : has_sep b = false -> basename b = b.
Proof.
  destruct b as [|c b]; [reflexivity|]. simpl.
  destruct (Ascii.eqb c sep); [discriminate|]. simpl.
  now intros ->.
Qed.

Lemma has_sep_app_sep (s b : string) : has_sep (s ++ String sep b) = true.
Proof.
  induction s as [|c s IH]; [reflexivity|]. simpl. rewrite IH.
  apply orb_true_r.
Qed.

Lemma basename_after_sep (s b : string) :
  has_sep b = false -> basename (s ++ String sep b) = b.
Proof.
  intros Hb. induction s as [|c s IH].
  - simpl. now rewrite Hb.
  - change (basename (String c (s ++ String sep b)) = b).
    cbn [basename]. now rewrite has_sep_app_sep.
Qed.

Lemma endswith_sep_split (path : string) :
  endswith_sep path = true -> exists s, path = s ++ String sep "".
Proof.
  induction path as [|c path IH]; [discriminate|].
  destruct path as [|c' path].
  - simpl. intros Hc. apply Ascii.eqb_eq in Hc. subst c. now exists "".
  - intros H. destruct (IH H) as (s & ->). now exists (String c s).
Qed.

(** The base name of a joined path is the last component, when that
    component has no separator of its own. *)
Lemma basename_join2 (path b : string) :
  has_sep b = false -> basename (join2 path b) = b.
Proof.
  intros Hb. unfold join2.
  rewrite (os_path_facts.startswith_sep_has_sep _ Hb).
  destruct path as [|c path]; [now apply basename_no_sep|].
  cbn [String.eqb orb].
  destruct (endswith_sep (String c path)) eqn:Hend.
  - destruct (endswith_sep_split _ Hend) as (s & ->).
    rewrite append_assoc. now apply basename_after_sep.
  - now apply (basename_after_sep (String c path)).
Qed.

End os_path_more.

Lemma find_latest_run_output_in_dir (E : Env)
    (project_dir image_name p : string) :
  find_latest_run_output E project_dir image_name = Ok (Some p) ->
  exists d, p = os_path.join d [image_name].
Proof.
  unfold find_latest_run_output. cbv zeta.
  destruct (os_listdir E project_dir) as [names|e]; cbn [py_bind];
    [|destruct (builtin_print E _) as [[]|]; discriminate].
  destruct (sub_dirs_of E project_dir names); [discriminate|].
  destruct (py_max _ _) as [d|e]; cbn [py_bind];
    [|destruct (builtin_print E _) as [[]|]; discriminate].
  destruct (os_path_exists E _); [|discriminate].
  intros [= <-]. now exists d.
Qed.

(** X6. The worker ends in one of exactly four ways. It raises only when an
    exception other than [FileNotFoundError] left the [try] body and the
    [print] that logs it raised in turn: then nothing is scheduled and the
    exception of that [print] leaves the worker. Otherwise it returns with
    one of three schedules: the box "Detection Error" alone, which happens
    only after a non-zero exit; a single
    [update_gui_post_detection(p, True)], which happens only after exit code
    0 and whose [p] is a non-empty path that exists and has the base name of
    the source; or an error box followed by
    [update_gui_post_detection(None, False)]. *)
Theorem detect_objects_three_shapes (E : Env) (g : gui) :
  (exists cls s e,
      detect_objects_try E g = Raise (Exception cls s) /\
      builtin_print E
        ("Full exception details: " ++ str_exn (Exception cls s)) = Raise e /\
      detect_objects E g = Raise e) \/
  (exists source result,
      input_image_path g = Some source /\
      subprocess_run E (command_of E g source) (yolov7_dir g) = Ok result /\
      returncode result <> 0 /\
      detect_objects E g =
        Ok [after_showerror "Detection Error" (exit_error_message result)]) \/
  (exists source result p,
      input_image_path g = Some source /\
      subprocess_run E (command_of E g source) (yolov7_dir g) = Ok result /\
      returncode result = 0 /\
      p <> "" /\ os_path_exists E p = true /\
      os_path.basename p = os_path.basename source /\
      detect_objects E g = Ok [after_update_gui_post_detection (Some p) true]) \/
  (exists title message,
      detect_objects E g =
        Ok [after_showerror title message;
            after_update_gui_post_detection None false]).
Proof.
  unfold detect_objects.
  destruct (detect_objects_try E g) as [calls|caught] eqn:Htry.
  - destruct (detect_objects_try_ok _ _ Htry)
      as (source & result & Hsrc & Hrun &
          [[Hnz ->] | [(Hz & Hex & ->) | [(Hz & p & Hlatest & Hne & Hp & ->)
                                         | (_ & t & m & ->)]]]).
    + right. left. now exists source, result.
    + right. right. left.
      pose proof (os_path_facts.has_sep_basename source) as Hbase.
      exists source, result,
        (os_path.join (project_dir_of g)
                      [experiment_name; os_path.basename source]).
      repeat split; try assumption.
      * rewrite expected_output_path.
        pose proof (project_dir_not_empty g).
        destruct (project_dir_of g); [congruence | discriminate].
      * exact (os_path_more.basename_join2 _ _ Hbase).
    + right. right. left.
      pose proof (os_path_facts.has_sep_basename source) as Hbase.
      exists source, result, p.
      repeat split; try assumption.
      destruct (find_latest_run_output_in_dir _ _ _ Hlatest) as (d & ->).
      exact (os_path_more.basename_join2 _ _ Hbase).
    + right. right. right. now exists t, m.
  - destruct caught as [s | cls s].
    + right. right. right. eauto.
    + destruct (builtin_print E
                  ("Full exception details: " ++ str_exn (Exception cls s)))
        as [[]|e] eqn:Hprint; cbn [py_bind].
      * right. right. right. eauto.
      * left. now exists cls, s, e.
Qed.

(** ** What a change of one label leaves alone *)

Lemma only_label_changed_refl (l : label_name) (w : world) :
  only_label_changed l w w.
Proof.
  split; [reflexivity|]. destruct w as [g t], g, l; reflexivity.
Qed.

Lemma only_label_changed_with_label (l : label_name) (f : label -> label)
    (w w' : world) :
  only_label_changed l w w' ->
  only_label_changed l w (on_ui (with_label l f) w').
Proof.
  intros [Ht Hu]. split; [exact Ht|].
  simpl. rewrite Hu at 1. destruct l; reflexivity.
Qed.

Lemma only_label_changed_controls (l : label_name) (w w' : world) :
  only_label_changed l w w' ->
  input_image_path (ui w') = input_image_path (ui w) /\
  browse_button (ui w') = browse_button (ui w) /\
  detect_button (ui w') = detect_button (ui w) /\
  reset_button (ui w') = reset_button (ui w) /\
  info_label (ui w') = info_label (ui w) /\
  yolov7_dir (ui w') = yolov7_dir (ui w) /\
  weights_path (ui w') = weights_path (ui w).
Proof.
  intros [_ ->]. destruct l; repeat split; reflexivity.
Qed.


(** Rendering, when it returns, touches nothing but its label, and never the
    stored original. *)
Lemma update_label_image_frame (E : Env) (l : label_name) (w w' : world) :
  update_label_image E l w = Ok w' ->
  only_label_changed l w w' /\
  original_image (get_label l (ui w'))
  = original_image (get_label l (ui w)).
Proof.
  unfold update_label_image.
  destruct (original_image (get_label l (ui w))) as [orig|] eqn:Horig.
  2:{ intros [= <-]. split; [apply only_label_changed_refl | now rewrite Horig]. }
  destruct (winfo_size E l) as [width height].
  destruct ((width <? 20) || (height <? 20)).
  { intros [= <-]. split; [apply only_label_changed_refl | now rewrite Horig]. }
  destruct (image_thumbnail E orig (width - 10, height - 10)) as [out|e];
    [|discriminate].
  cbn [py_bind]. destruct (photo_error E out).
  { intros [= <-]. split; [apply only_label_changed_refl | now rewrite Horig]. }
  intros [= <-]. split.
  - do 2 apply only_label_changed_with_label. apply only_label_changed_refl.
  - rewrite get_label_config_then_set, Horig. reflexivity.
Qed.

Lemma on_configure_frame (E : Env) (l : label_name) (w : world) :
  only_label_changed l w (on_configure E l w) /\
  original_image (get_label l (ui (on_configure E l w)))
  = original_image (get_label l (ui w)).
Proof.
  unfold on_configure.
  destruct (update_label_image E l w) as [w'|e] eqn:Hupd.
  - exact (update_label_image_frame _ _ _ Hupd).
  - split; [apply only_label_changed_refl | reflexivity].
Qed.

Lemma reset_ui_true_after_label (l : label_name) (w w' : world) :
  only_label_changed l w w' -> ui (reset_ui true w') = ui (reset_ui true w).
Proof.
  intros [_ Hu]. unfold reset_ui. simpl. rewrite Hu.
  destruct l; reflexivity.
Qed.

Lemma reset_ui_trace (clear_input : bool) (w : world) :
  trace (reset_ui clear_input w) = trace w.
Proof.
  destruct clear_input; [reflexivity|].
  unfold reset_ui. cbn [negb andb]. destruct (truthy _); reflexivity.
Qed.

Lemma reset_ui_true_emit (e : event) (w : world) :
  ui (reset_ui true (emit e w)) = ui (reset_ui true w).
Proof. destruct w. cbv -[String.append]. reflexivity. Qed.

Lemma display_failed_effect (image_path : string) (e : exn) (w : world) :
  exists title message,
    ui (display_failed image_path e w) = ui (reset_ui true w) /\
    trace (display_failed image_path e w)
    = (trace w ++ [showerror title message])%list.
Proof.
  destruct e; unfold display_failed, messagebox_showerror;
    do 2 eexists; (split; [apply reset_ui_true_emit|]);
    rewrite reset_ui_trace; reflexivity.
Qed.

(** Loading an image either changes its label only, or, when opening or
    rendering raised, shows one error box and resets the whole session. *)
Lemma display_flexible_image_cases (E : Env) (image_path : string)
    (l : label_name) (w : world) :
  only_label_changed l w (display_flexible_image E image_path l w) \/
  exists title message,
    ui (display_flexible_image E image_path l w) = ui (reset_ui true w) /\
    trace (display_flexible_image E image_path l w)
    = (trace w ++ [showerror title message])%list.
Proof.
  unfold display_flexible_image.
  set (w1 := w |> label_set_image l None |> label_set_original_image l None).
  assert (H1 : only_label_changed l w w1).
  { do 2 apply only_label_changed_with_label. apply only_label_changed_refl. }
  assert (Hfail : forall e w2, only_label_changed l w w2 ->
            exists title message,
              ui (display_failed image_path e w2) = ui (reset_ui true w) /\
              trace (display_failed image_path e w2)
              = (trace w ++ [showerror title message])%list).
  { intros e w2 H2.
    destruct (display_failed_effect image_path e w2) as (t & m & Hu & Ht).
    exists t, m. rewrite Hu, Ht, (reset_ui_true_after_label H2).
    destruct H2 as [-> _]. now split. }
  destruct (PILImage_open E image_path) as [orig|e]; [|right; now apply Hfail].
  set (w2 := w1 |> label_set_original_image l (Some orig)).
  assert (H2 : only_label_changed l w w2)
    by now apply only_label_changed_with_label.
  destruct (update_label_image E l w2) as [w3|e] eqn:Hupd;
    [|right; now apply Hfail].
  left. destruct (update_label_image_frame _ _ _ Hupd) as [[Ht3 Hu3] _].
  destruct H2 as [Ht2 Hu2]. split; [congruence|].
  rewrite Hu3, Hu2. destruct l; reflexivity.
Qed.

(** ** Rendering on resize *)

Lemma config_then_set_twice (l : label_name) (p q : option photo) (w : world) :
  (w |> label_config_image l p |> label_set_image l p)
    |> label_config_image l q |> label_set_image l q
  = (w |> label_config_image l q |> label_set_image l q).
Proof. destruct w as [g t], g, l; reflexivity. Qed.

(** The three ways [update_label_image] can end. *)
Lemma update_label_image_result (E : Env) (l : label_name) (w : world) :
  (exists e, update_label_image E l w = Raise e) \/
  update_label_image E l w = Ok w \/
  exists orig out,
    original_image (get_label l (ui w)) = Some orig /\
    20 <= fst (winfo_size E l) /\ 20 <= snd (winfo_size E l) /\
    image_thumbnail E orig
      (fst (winfo_size E l) - 10, snd (winfo_size E l) - 10) = Ok out /\
    photo_error E out = None /\
    update_label_image E l w =
      Ok (w |> label_config_image l (Some (PhotoImage out))
            |> label_set_image l (Some (PhotoImage out))).
Proof.
  unfold update_label_image.
  destruct (original_image (get_label l (ui w))) as [orig|]; [|now right; left].
  destruct (winfo_size E l) as [width height]. cbn [fst snd].
  destruct (Z.ltb_spec width 20); [now right; left|].
  destruct (Z.ltb_spec height 20); [now right; left|]. cbn [orb].
  destruct (image_thumbnail E orig (width - 10, height - 10)) as [out|e] eqn:Ht;
    [|left; now exists e].
  cbn [py_bind]. destruct (photo_error E out) eqn:Hp; [now right; left|].
  right. right. exists orig, out. repeat split; auto.
Qed.

(** When the panel is large enough and PIL and Tk do their part, rendering
    shows the thumbnail of the stored original, whatever was shown before. *)
Lemma on_configure_renders (E : Env) (l : label_name) (w : world)
    (orig out : pil_image) (width height : Z) :
  original_image (get_label l (ui w)) = Some orig ->
  winfo_size E l = (width, height) ->
  20 <= width -> 20 <= height ->
  image_thumbnail E orig (width - 10, height - 10) = Ok out ->
  photo_error E out = None ->
  on_configure E l w =
    (w |> label_config_image l (Some (PhotoImage out))
       |> label_set_image l (Some (PhotoImage out))).
Proof.
  intros Horig Hsize Hw Hh Hthumb Hphoto.
  unfold on_configure, update_label_image. rewrite Horig, Hsize.
  destruct (Z.ltb_spec width 20); [lia|].
  destruct (Z.ltb_spec height 20); [lia|]. cbn [orb].
  rewrite Hthumb. cbn [py_bind]. rewrite Hphoto. reflexivity.
Qed.

(** X7. A [<Configure>] that repeats under the same conditions changes
    nothing the second time: the callback is idempotent, whether it rendered,
    skipped or raised. *)
Theorem on_configure_idempotent (E : Env) (l : label_name) (w : world) :
  on_configure E l (on_configure E l w) = on_configure E l w.
Proof.
  destruct (update_label_image_result E l w)
    as [(e & Hr) | [Hsame | (orig & out & Horig & Hw & Hh & Ht & Hp & Hr)]].
  - unfold on_configure. rewrite Hr. now rewrite Hr.
  - unfold on_configure. rewrite Hsame. now rewrite Hsame.
  - destruct (winfo_size E l) as [width height] eqn:Hsize. cbn [fst snd] in *.
    rewrite (@on_configure_renders E l w orig out width height Horig Hsize Hw Hh Ht Hp).
    rewrite (@on_configure_renders E l _ orig out width height); auto.
    + apply config_then_set_twice.
    + rewrite get_label_config_then_set. exact Horig.
Qed.

(** X8. What a resize shows depends on the stored original and the new size
    only, not on what earlier resizes rendered: every render scales the
    original afresh, never an earlier thumbnail. *)
Theorem on_configure_forgets_earlier_renders (E1 E2 : Env) (l : label_name)
    (w : world) (orig out : pil_image) (width height : Z) :
  original_image (get_label l (ui w)) = Some orig ->
  winfo_size E2 l = (width, height) ->
  20 <= width -> 20 <= height ->
  image_thumbnail E2 orig (width - 10, height - 10) = Ok out ->
  photo_error E2 out = None ->
  on_configure E2 l (on_configure E1 l w) = on_configure E2 l w /\
  get_label l (ui (on_configure E2 l (on_configure E1 l w)))
  = {| config_image := Some (PhotoImage out);
       image := Some (PhotoImage out);
       original_image := Some orig |}.
Proof.
  intros Horig Hsize Hw Hh Ht Hp.
  assert (Horig1 : original_image (get_label l (ui (on_configure E1 l w)))
                   = Some orig).
  { destruct (on_configure_frame E1 l w) as [_ ->]. exact Horig. }
  rewrite (@on_configure_renders E2 l _ orig out width height Horig1 Hsize Hw Hh Ht Hp).
  rewrite (@on_configure_renders E2 l w orig out width height Horig Hsize Hw Hh Ht Hp).
  split.
  - unfold on_configure.
    destruct (update_label_image_result E1 l w)
      as [(e & ->) | [-> | (o & p & _ & _ & _ & _ & _ & ->)]];
      try reflexivity.
    apply config_then_set_twice.
  - rewrite get_label_config_then_set, Horig1. reflexivity.
Qed.

(** X9. An image loaded while its panel is smaller than 20 pixels is stored
    but not drawn, without any message; the first [<Configure>] that finds
    the panel large enough draws it. *)
Theorem display_flexible_image_deferred (E1 E2 : Env) (image_path : string)
    (l : label_name) (w : world) (orig out : pil_image)
    (w1 h1 width height : Z) :
  PILImage_open E1 image_path = Ok orig ->
  winfo_size E1 l = (w1, h1) ->
  w1 < 20 \/ h1 < 20 ->
  winfo_size E2 l = (width, height) ->
  20 <= width -> 20 <= height ->
  image_thumbnail E2 orig (width - 10, height - 10) = Ok out ->
  photo_error E2 out = None ->
  let loaded := display_flexible_image E1 image_path l w in
  trace loaded = trace w /\
  image (get_label l (ui loaded)) = None /\
  original_image (get_label l (ui loaded)) = Some orig /\
  get_label l (ui (on_configure E2 l loaded))
  = {| config_image := Some (PhotoImage out);
       image := Some (PhotoImage out);
       original_image := Some orig |}.
Proof.
  intros Hopen Hs1 Hsmall Hs2 Hw Hh Ht Hp. cbv zeta.
  unfold display_flexible_image. rewrite Hopen.
  set (w2 := w |> label_set_image l None |> label_set_original_image l None
               |> label_set_original_image l (Some orig)).
  assert (Hskip : update_label_image E1 l w2 = Ok w2).
  { unfold update_label_image.
    destruct (original_image (get_label l (ui w2))); [|reflexivity].
    rewrite Hs1.
    replace ((w1 <? 20) || (h1 <? 20)) with true; [reflexivity|].
    symmetry. apply orb_true_iff.
    destruct Hsmall; [left | right]; now apply Z.ltb_lt. }
  rewrite Hskip.
  assert (Horig2 : original_image (get_label l (ui w2)) = Some orig)
    by (destruct l; reflexivity).
  repeat split.
  - destruct l; reflexivity.
  - exact Horig2.
  - rewrite (@on_configure_renders E2 l w2 orig out width height Horig2 Hs2 Hw Hh Ht Hp).
    rewrite get_label_config_then_set, Horig2. reflexivity.
Qed.

(** ** Selecting an image *)

Lemma reset_ui_enables (clear_input : bool) (w : world) :
  browse_button (ui (reset_ui clear_input w)) = NORMAL /\
  reset_button (ui (reset_ui clear_input w)) = NORMAL.
Proof.
  destruct clear_input; unfold reset_ui; cbn [negb andb];
    [|destruct (truthy _)]; split; reflexivity.
Qed.

Lemma display_flexible_image_keeps_enabled (E : Env) (image_path : string)
    (l : label_name) (w : world) :
  browse_button (ui w) = NORMAL -> reset_button (ui w) = NORMAL ->
  browse_button (ui (display_flexible_image E image_path l w)) = NORMAL /\
  reset_button (ui (display_flexible_image E image_path l w)) = NORMAL.
Proof.
  intros Hb Hr.
  destruct (display_flexible_image_cases E image_path l w)
    as [Hlabel | (t & m & -> & _)].
  - destruct (only_label_changed_controls Hlabel) as (_ & -> & _ & -> & _).
    now split.
  - apply reset_ui_enables.
Qed.

(** The statements of [browse_image] before the image is loaded. *)
Lemma browse_image_unfold (E : Env) (file_path : string) (w : world) :
  file_path <> "" ->
  browse_image E file_path w =
    (display_flexible_image E file_path input_label
       (w |> reset_ui false
          |> set_input_image_path (Some file_path)
          |> info_label_config ("Selected: " ++ os_path.basename file_path)))
    |> detect_button_config NORMAL
    |> clear_label result_label.
Proof.
  intros Hne. unfold browse_image.
  apply String.eqb_neq in Hne. now rewrite Hne.
Qed.

(** X10. Whatever file is picked, and whether or not it loads, [browse_image]
    ends with the result panel empty and Browse, Detect and Reset enabled: a
    new selection always supersedes the previous result. *)
Theorem browse_image_supersedes_result (E : Env) (file_path : string)
    (w : world) :
  file_path <> "" ->
  let w' := browse_image E file_path w in
  result_image_label (ui w') = empty_label /\
  browse_button (ui w') = NORMAL /\
  detect_button (ui w') = NORMAL /\
  reset_button (ui w') = NORMAL.
Proof.
  intros Hne. cbv zeta. rewrite (browse_image_unfold E w Hne).
  set (w1 := w |> reset_ui false |> set_input_image_path (Some file_path)
               |> info_label_config _).
  assert (H1 : browse_button (ui w1) = NORMAL /\ reset_button (ui w1) = NORMAL)
    by exact (reset_ui_enables false w).
  destruct H1 as [Hb Hr].
  destruct (display_flexible_image_keeps_enabled E file_path input_label w1 Hb Hr)
    as [Hb' Hr'].
  set (w2 := display_flexible_image E file_path input_label w1) in *.
  repeat split; assumption.
Qed.


(** X12. Picking a file that cannot be opened shows one error box and resets
    the session, and then enables Detect all the same: Detect ends up enabled
    with no remembered source path, and a click on it is turned down with the
    box "No valid image selected or file not found." and nothing else. *)
Theorem browse_image_unreadable_file (E E' : Env) (file_path : string)
    (w : world) (e : exn) :
  file_path <> "" ->
  PILImage_open E file_path = Raise e ->
  let w' := browse_image E file_path w in
  input_image_path (ui w') = None /\
  detect_button (ui w') = NORMAL /\
  input_image_label (ui w') = empty_label /\
  (exists title message,
      trace w' = (trace w ++ [showerror title message])%list) /\
  start_detection_thread E' w' =
    messagebox_showerror "Error" "No valid image selected or file not found."
      w'.
Proof.
  intros Hne Hopen. cbv zeta. rewrite (browse_image_unfold E w Hne).
  unfold display_flexible_image. rewrite Hopen.
  set (w1 := w |> reset_ui false |> set_input_image_path (Some file_path)
               |> info_label_config _
               |> label_set_image input_label None
               |> label_set_original_image input_label None).
  destruct (display_failed_effect file_path e w1) as (t & m & Hu & Ht).
  set (w2 := display_failed file_path e w1) in *.
  assert (Hpath : input_image_path (ui w2) = None) by now rewrite Hu.
  assert (Hin : input_image_label (ui w2) = empty_label) by now rewrite Hu.
  repeat split; try assumption.
  - exists t, m. cbn [trace clear_label]. 
    change (trace w2 = (trace w ++ [showerror t m])%list).
    rewrite Ht. f_equal. exact (reset_ui_trace false w).
  - unfold start_detection_thread.
    change (input_image_path (ui (w2 |> detect_button_config NORMAL
                                     |> clear_label result_label)))
      with (input_image_path (ui w2)).
    rewrite Hpath. reflexivity.
Qed.

(** ** After the worker *)


(** The last three statements of [update_gui_post_detection]. *)
Lemma update_gui_post_detection_unfold (E : Env) (p : string) (w : world) :
  p <> "" ->
  update_gui_post_detection E (Some p) true w =
    let w1 :=
      w |> info_label_config
             ("Detection complete. Result: " ++ os_path.basename p)
        |> display_flexible_image E p result_label in
    w1 |> detect_button_config
            (if truthy (input_image_path (ui w1)) then NORMAL else DISABLED)
       |> browse_button_config NORMAL
       |> reset_button_config NORMAL.
Proof.
  intros Hne. unfold update_gui_post_detection.
  apply String.eqb_neq in Hne. rewrite Hne. reflexivity.
Qed.


Lemma finish_after_reset (w2 w : world) :
  ui w2 = ui (reset_ui true w) ->
  ui (w2 |> detect_button_config
              (if truthy (input_image_path (ui w2)) then NORMAL else DISABLED)
         |> browse_button_config NORMAL
         |> reset_button_config NORMAL)
  = ui (reset_ui true w).
Proof.
  destruct w2 as [g2 t2]. cbn [ui]. intros ->.
  destruct w as [g t], g. cbv. reflexivity.
Qed.

(** X14. When the annotated image cannot be opened,
    [update_gui_post_detection(p, True)] shows one error box and leaves the
    widgets exactly as [reset_ui()] would: the input panel and the remembered
    source path are lost along with the result, and Detect is disabled. *)
Theorem update_gui_post_detection_unloadable_result (E : Env) (p : string)
    (w : world) (e : exn) :
  p <> "" ->
  PILImage_open E p = Raise e ->
  let w' := update_gui_post_detection E (Some p) true w in
  ui w' = ui (reset_ui true w) /\
  input_image_path (ui w') = None /\
  detect_button (ui w') = DISABLED /\
  exists title message,
    trace w' = (trace w ++ [showerror title message])%list.
Proof.
  intros Hne Hopen. cbv zeta.
  rewrite (update_gui_post_detection_unfold E w Hne). cbv zeta.
  unfold display_flexible_image. rewrite Hopen.
  set (w1 := w |> info_label_config _ |> label_set_image result_label None
               |> label_set_original_image result_label None).
  destruct (display_failed_effect p e w1) as (t & m & Hu & Ht).
  set (w2 := display_failed p e w1) in *.
  assert (Hu' : ui w2 = ui (reset_ui true w)).
  { rewrite Hu. destruct w as [g tr], g. cbv. reflexivity. }
  rewrite (@finish_after_reset w2 w Hu').
  repeat split. exists t, m. exact Ht.
Qed.

(** X15. An accepted click whose worker reports a failure through
    [update_gui_post_detection(None, False)] (the output was not found, or an
    exception was caught) leaves the session as it was before the click,
    except that the result panel is empty, the info label says that detection
    failed, and the three buttons are enabled; the error is in a box. *)
Theorem detection_run_reported_failure (E E_work E_done : Env) (w : world)
    (source title message : string) :
  input_image_path (ui w) = Some source ->
  source <> "" ->
  os_path_exists E source = true ->
  os_path_isdir E (yolov7_dir (ui w)) = true ->
  os_path_isfile E (os_path.join (yolov7_dir (ui w)) ["detect.py"]) = true ->
  detect_objects E_work (ui (prepare_and_start w)) =
    Ok [after_showerror title message;
        after_update_gui_post_detection None false] ->
  let w' := detection_run E E_work E_done w in
  ui w' =
    ui (w |> info_label_config "Detection failed or output not found."
          |> clear_label result_label
          |> detect_button_config NORMAL
          |> browse_button_config NORMAL
          |> reset_button_config NORMAL) /\
  In (showerror title message) (trace w').
Proof.
  intros Hsrc Hne Hex Hdir Hscript Hcalls. cbv zeta.
  rewrite (@detection_run_accepted E w source Hsrc Hne Hex Hdir Hscript).
  unfold worker_done. rewrite Hcalls.
  destruct (@start_detection_thread_accepted E w source Hsrc Hne Hex
              Hdir Hscript) as (warnings & _ & ->).
  unfold mainloop_runs. cbn [fold_left run_after].
  unfold update_gui_post_detection.
  set (w1 := messagebox_showerror title message _
             |> info_label_config _ |> clear_label result_label).
  change (input_image_path (ui w1)) with (input_image_path (ui w)).
  rewrite Hsrc. unfold truthy. apply String.eqb_neq in Hne. rewrite Hne.
  cbn [negb]. split.
  - destruct w as [g t], g. cbv. reflexivity.
  - unfold w1. cbn. apply in_or_app. right. now left.
Qed.

(** ** The setup check *)

(** X16. A missing weights file does not stop a detection: with the tool
    directory and [detect.py] in place the click goes through and the thread
    is started, after one warning box if the weights file is missing and
    after none if it is there. *)
Theorem start_detection_thread_missing_weights_only_warns (E : Env)
    (w : world) (source : string) :
  input_image_path (ui w) = Some source ->
  source <> "" ->
  os_path_exists E source = true ->
  os_path_isdir E (yolov7_dir (ui w)) = true ->
  os_path_isfile E (os_path.join (yolov7_dir (ui w)) ["detect.py"]) = true ->
  (os_path_isfile E (weights_path (ui w)) = true ->
   start_detection_thread E w = prepare_and_start w) /\
  (os_path_isfile E (weights_path (ui w)) = false ->
   exists message,
     start_detection_thread E w =
       prepare_and_start (messagebox_showwarning "Setup Warning" message w)).
Proof.
  intros Hsrc Hne Hex Hdir Hscript.
  apply String.eqb_neq in Hne.
  unfold start_detection_thread, check_yolov7_setup.
  rewrite Hsrc, Hne, Hex, Hdir, Hscript. cbn [negb andb].
  unfold prepare_and_start.
  split; intros Hweights; rewrite Hweights; cbn [negb].
  - reflexivity.
  - eexists. reflexivity.
Qed.

(** X17. Start-up never fails and never blocks: whatever the setup check
    finds, the widgets are exactly those [build_widgets] made, at most one
    box was shown and it is a warning, and with the directory, [detect.py]
    and the weights file in place none is shown. *)
Theorem YOLOv7GUI_init_only_warns (E : Env) (dir : string) :
  ui (YOLOv7GUI_init E dir) = built_widgets dir /\
  (List.length (trace (YOLOv7GUI_init E dir)) <= 1)%nat /\
  (forall e, In e (trace (YOLOv7GUI_init E dir)) ->
     exists t m, e = showwarning t m) /\
  (os_path_isdir E dir = true ->
   os_path_isfile E (os_path.join dir ["detect.py"]) = true ->
   os_path_isfile E (os_path.join dir ["yolov7.pt"]) = true ->
   trace (YOLOv7GUI_init E dir) = []).
Proof.
  unfold YOLOv7GUI_init.
  assert (Hquiet :
            os_path_isdir E dir = true ->
            os_path_isfile E (os_path.join dir ["detect.py"]) = true ->
            os_path_isfile E (os_path.join dir ["yolov7.pt"]) = true ->
            trace (snd (check_yolov7_setup E
                          {| ui := built_widgets dir; trace := [] |})) = []).
  { intros Hdir Hscript Hweights. unfold check_yolov7_setup.
    cbn [ui yolov7_dir weights_path built_widgets].
    rewrite Hdir, Hscript, Hweights. reflexivity. }
  destruct (check_yolov7_setup_effect E
              {| ui := built_widgets dir; trace := [] |})
    as (shown & _ & Hw & Hlen & _ & Hwarn).
  rewrite Hw in *. cbn [ui trace app] in *. repeat split; assumption.
Qed.

(** ** The session as a state machine *)

Lemma start_detection_thread_ui_cases (E : Env) (w : world) :
  ui (start_detection_thread E w) = ui w \/
  ui (start_detection_thread E w) = ui (prepare_and_start w).
Proof.
  unfold start_detection_thread.
  destruct (match input_image_path (ui w) with
            | Some p => negb (p =? "")%string && os_path_exists E p
            | None => false
            end); cbn [negb]; [|now left].
  destruct (check_yolov7_setup_effect E w) as (shown & _ & Hw & _).
  destruct (check_yolov7_setup E w) as [ok w1]. cbn [snd] in Hw. subst w1.
  unfold prepare_and_start.
  destruct ok; cbn [negb]; [right | left]; reflexivity.
Qed.

Lemma display_flexible_image_dirs (E : Env) (image_path : string)
    (l : label_name) (w : world) :
  yolov7_dir (ui (display_flexible_image E image_path l w))
  = yolov7_dir (ui w) /\
  weights_path (ui (display_flexible_image E image_path l w))
  = weights_path (ui w).
Proof.
  destruct (display_flexible_image_cases E image_path l w)
    as [Hlabel | (t & m & -> & _)].
  - destruct (only_label_changed_controls Hlabel) as (_ & _ & _ & _ & _ & -> & ->).
    now split.
  - destruct w as [g tr], g. split; reflexivity.
Qed.

Lemma session_invariant_enabled (dir : string) (g g' : gui) :
  browse_button g' = NORMAL -> reset_button g' = NORMAL ->
  yolov7_dir g' = yolov7_dir g -> weights_path g' = weights_path g ->
  session_invariant dir g -> session_invariant dir g'.
Proof.
  intros Hb Hr Hd Hw (_ & _ & Hdir & Hweights).
  repeat split; congruence.
Qed.

Lemma session_invariant_label (dir : string) (l : label_name) (w w' : world) :
  only_label_changed l w w' ->
  session_invariant dir (ui w) -> session_invariant dir (ui w').
Proof.
  intros Hlabel (Hbr & Hdis & Hdir & Hweights).
  destruct (only_label_changed_controls Hlabel)
    as (_ & Hb & Hd & Hr & _ & Hy & Hw).
  unfold session_invariant. rewrite Hb, Hd, Hr, Hy, Hw. auto.
Qed.

Lemma browse_image_invariant (E : Env) (file_path : string) (w : world)
    (dir : string) :
  session_invariant dir (ui w) ->
  session_invariant dir (ui (browse_image E file_path w)).
Proof.
  intros Hinv. destruct (string_dec file_path "") as [->|Hne];
    [exact Hinv|].
  rewrite (browse_image_unfold E w Hne).
  set (w1 := w |> reset_ui false |> set_input_image_path (Some file_path)
               |> info_label_config _).
  destruct (reset_ui_enables false w) as [Hb Hr].
  destruct (display_flexible_image_keeps_enabled E file_path input_label w1
              Hb Hr) as [Hb' Hr'].
  destruct (display_flexible_image_dirs E file_path input_label w1)
    as [Hy Hw].
  set (w2 := display_flexible_image E file_path input_label w1) in *.
  apply session_invariant_enabled with (g := ui w); try assumption.
  - transitivity (yolov7_dir (ui w1)); [exact Hy|].
    unfold w1, reset_ui. cbn [negb andb].
    destruct (truthy _); destruct w as [g tr], g; reflexivity.
  - transitivity (weights_path (ui w1)); [exact Hw|].
    unfold w1, reset_ui. cbn [negb andb].
    destruct (truthy _); destruct w as [g tr], g; reflexivity.
Qed.

Lemma update_gui_post_detection_dirs (E : Env) (output_path : option string)
    (success : bool) (w : world) :
  yolov7_dir (ui (update_gui_post_detection E output_path success w))
  = yolov7_dir (ui w) /\
  weights_path (ui (update_gui_post_detection E output_path success w))
  = weights_path (ui w).
Proof.
  assert (Hfail : forall w0 : world,
            yolov7_dir (ui (w0 |> info_label_config
                                    "Detection failed or output not found."
                               |> clear_label result_label))
            = yolov7_dir (ui w0) /\
            weights_path (ui (w0 |> info_label_config
                                      "Detection failed or output not found."
                                 |> clear_label result_label))
            = weights_path (ui w0)) by (intros [g tr]; split; reflexivity).
  unfold update_gui_post_detection.
  destruct output_path as [p|]; [|exact (Hfail w)].
  destruct (success && negb (p =? "")%string); [|exact (Hfail w)].
  exact (display_flexible_image_dirs E p result_label
           (w |> info_label_config _)).
Qed.

Lemma dispatch_invariant (E : Env) (w : world) (ev : ui_event) (dir : string) :
  session_invariant dir (ui w) ->
  session_invariant dir (ui (dispatch E w ev)).
Proof.
  intros Hinv. destruct ev as [file_path | | | l | c]; cbn [dispatch].
  - destruct (browse_button (ui w)); [|exact Hinv].
    now apply browse_image_invariant.
  - destruct (detect_button (ui w)); [|exact Hinv].
    destruct (start_detection_thread_ui_cases E w) as [-> | ->];
      [exact Hinv|].
    destruct Hinv as (_ & _ & Hdir & Hweights).
    repeat split; assumption.
  - destruct (reset_button (ui w)); [|exact Hinv].
    destruct (reset_ui_enables true w) as [Hb Hr].
    apply session_invariant_enabled with (g := ui w); auto.
  - exact (session_invariant_label (proj1 (on_configure_frame E l w)) Hinv).
  - destruct c as [title message | output_path success]; cbn [run_after];
      [exact Hinv|].
    destruct (update_gui_post_detection_enables E output_path success w)
      as [Hb Hr].
    destruct (update_gui_post_detection_dirs E output_path success w)
      as [Hy Hw].
    now apply session_invariant_enabled with (g := ui w).
Qed.

(** X18. Through any sequence of clicks, resizes and scheduled callbacks after
    start-up, Browse and Reset are enabled or disabled together, Detect is
    never enabled while they are disabled, and the tool directory and the
    weights path stay what start-up made them. *)
Theorem mainloop_keeps_session_invariant (E0 : Env) (dir : string)
    (events : list (Env * ui_event)) :
  session_invariant dir (ui (mainloop events (YOLOv7GUI_init E0 dir))).
Proof.
  assert (Hinit : session_invariant dir (ui (YOLOv7GUI_init E0 dir))).
  { unfold YOLOv7GUI_init.
    destruct (check_yolov7_setup_effect E0
                {| ui := built_widgets dir; trace := [] |})
      as (shown & _ & -> & _).
    repeat split. }
  revert Hinit. generalize (YOLOv7GUI_init E0 dir).
  unfold mainloop. induction events as [|[E ev] events IH]; intros w Hinv;
    [exact Hinv|].
  cbn [fold_left fst snd]. apply IH. now apply dispatch_invariant.
Qed.

Lemma dispatch_while_disabled (E : Env) (w : world) (ev : ui_event) :
  is_user_event ev = true ->
  controls_disabled (ui w) ->
  controls_disabled (ui (dispatch E w ev)) /\
  trace (dispatch E w ev) = trace w /\
  input_image_path (ui (dispatch E w ev)) = input_image_path (ui w).
Proof.
  intros Huser (Hb & Hd & Hr).
  destruct ev as [file_path | | | l | c]; cbn [dispatch];
    try discriminate Huser;
    try (rewrite ?Hb, ?Hd, ?Hr; repeat split; assumption).
  destruct (on_configure_frame E l w) as [Hlabel _].
  destruct (only_label_changed_controls Hlabel)
    as (Hp & Hb' & Hd' & Hr' & _).
  destruct Hlabel as [Ht _]. unfold controls_disabled.
  rewrite Hb', Hd', Hr'. repeat split; assumption.
Qed.

(** X19. While Browse, Detect and Reset are disabled, nothing the user does
    (clicks on the three buttons, resizes) enables a button, starts a thread,
    shows a box or changes the remembered source path: only a callback
    scheduled by the worker can end that state. *)
Theorem mainloop_inert_while_disabled (events : list (Env * ui_event))
    (w : world) :
  (forall ev, In ev events -> is_user_event (snd ev) = true) ->
  controls_disabled (ui w) ->
  controls_disabled (ui (mainloop events w)) /\
  trace (mainloop events w) = trace w /\
  input_image_path (ui (mainloop events w)) = input_image_path (ui w).
Proof.
  unfold mainloop. revert w.
  induction events as [|[E ev] events IH]; intros w Huser Hdis;
    [split; [exact Hdis | split; reflexivity]|].
  cbn [fold_left fst snd].
  destruct (@dispatch_while_disabled E w ev (Huser (E, ev) (or_introl eq_refl))
              Hdis) as (Hdis' & Ht & Hp).
  destruct (IH (dispatch E w ev)) as (Hdis'' & Ht' & Hp').
  - intros ev' Hin. apply Huser. now right.
  - exact Hdis'.
  - split; [exact Hdis''|]. split; congruence.
Qed.

(** ** The further statements at work in the concrete world *)



Lemma find_latest_run_output_sound_witness :
  exists names d,
    os_listdir (demo_env world_renamed) runs_detect = Ok names /\
    In d (sub_dirs_of (demo_env world_renamed) runs_detect names) /\
    latest_among (demo_env world_renamed) d
      (sub_dirs_of (demo_env world_renamed) runs_detect names) /\
    "/opt/yolov7/runs/detect/GUI_exp2/cat.jpg" = os_path.join d ["cat.jpg"] /\
    os_path_exists (demo_env world_renamed)
      "/opt/yolov7/runs/detect/GUI_exp2/cat.jpg" = true.
Proof.
  apply (@find_latest_run_output_sound (demo_env world_renamed) runs_detect
           "cat.jpg" "/opt/yolov7/runs/detect/GUI_exp2/cat.jpg").
  reflexivity.
Defined.


Lemma find_latest_run_output_first_of_equals_witness :
  find_latest_run_output (demo_env world_tied) runs_detect "cat.jpg" =
    Ok (if os_path_exists (demo_env world_tied)
             (os_path.join "/opt/yolov7/runs/detect/GUI_exp2" ["cat.jpg"])
        then Some (os_path.join "/opt/yolov7/runs/detect/GUI_exp2" ["cat.jpg"])
        else None).
Proof.
  apply (@find_latest_run_output_first_of_equals (demo_env world_tied)
           runs_detect "cat.jpg" ["GUI_exp"; "GUI_exp2"; "GUI_exp3"]
           ["/opt/yolov7/runs/detect/GUI_exp"]
           ["/opt/yolov7/runs/detect/GUI_exp3"]
           "/opt/yolov7/runs/detect/GUI_exp2" 12);
    try reflexivity.
  - intros x [<-|[]]. exists 8. split; [reflexivity | lia].
  - intros x [<-|[]]. exists 12. split; [reflexivity | lia].
Defined.

Lemma on_configure_forgets_earlier_renders_witness :
  on_configure (demo_env world_enlarged) input_label
    (on_configure (demo_env world_expected) input_label demo_selected)
  = on_configure (demo_env world_enlarged) input_label demo_selected /\
  get_label input_label
    (ui (on_configure (demo_env world_enlarged) input_label
           (on_configure (demo_env world_expected) input_label demo_selected)))
  = {| config_image := Some (PhotoImage {| im_width := 800; im_height := 450 |});
       image := Some (PhotoImage {| im_width := 800; im_height := 450 |});
       original_image := Some cat |}.
Proof.
  apply (@on_configure_forgets_earlier_renders (demo_env world_expected)
           (demo_env world_enlarged) input_label demo_selected cat
           {| im_width := 800; im_height := 450 |} 810 610);
    try reflexivity; lia.
Defined.

Lemma display_flexible_image_deferred_witness :
  let loaded := display_flexible_image (demo_env world_squeezed)
                  "/home/u/cat.jpg" result_label demo_selected in
  trace loaded = trace demo_selected /\
  image (get_label result_label (ui loaded)) = None /\
  original_image (get_label result_label (ui loaded)) = Some cat /\
  get_label result_label
    (ui (on_configure (demo_env world_enlarged) result_label loaded))
  = {| config_image := Some (PhotoImage {| im_width := 800; im_height := 450 |});
       image := Some (PhotoImage {| im_width := 800; im_height := 450 |});
       original_image := Some cat |}.
Proof.
  apply (@display_flexible_image_deferred (demo_env world_squeezed)
           (demo_env world_enlarged) "/home/u/cat.jpg" result_label
           demo_selected cat {| im_width := 800; im_height := 450 |}
           15 300 810 610);
    try reflexivity; lia.
Defined.

Lemma browse_image_supersedes_result_witness :
  let w' := browse_image (demo_env world_corrupt) "/home/u/notes.jpg"
              demo_selected in
  result_image_label (ui w') = empty_label /\
  browse_button (ui w') = NORMAL /\
  detect_button (ui w') = NORMAL /\
  reset_button (ui w') = NORMAL.
Proof.
  apply (@browse_image_supersedes_result (demo_env world_corrupt)
           "/home/u/notes.jpg" demo_selected).
  discriminate.
Defined.


Lemma browse_image_unreadable_file_witness :
  let w' := browse_image (demo_env world_corrupt) "/home/u/notes.jpg"
              demo_selected in
  input_image_path (ui w') = None /\
  detect_button (ui w') = NORMAL /\
  input_image_label (ui w') = empty_label /\
  (exists title message,
      trace w' = (trace demo_selected ++ [showerror title message])%list) /\
  start_detection_thread (demo_env world_corrupt) w' =
    messagebox_showerror "Error" "No valid image selected or file not found."
      w'.
Proof.
  apply (@browse_image_unreadable_file (demo_env world_corrupt)
           (demo_env world_corrupt) "/home/u/notes.jpg" demo_selected
           (Exception "UnidentifiedImageError" "/home/u/notes.jpg"));
    [discriminate | reflexivity].
Defined.


Lemma update_gui_post_detection_unloadable_result_witness :
  let w' := update_gui_post_detection (demo_env world_corrupt)
              (Some "/opt/yolov7/runs/detect/GUI_exp/cat.jpg") true
              demo_detecting in
  ui w' = ui (reset_ui true demo_detecting) /\
  input_image_path (ui w') = None /\
  detect_button (ui w') = DISABLED /\
  exists title message,
    trace w' = (trace demo_detecting ++ [showerror title message])%list.
Proof.
  apply (@update_gui_post_detection_unloadable_result (demo_env world_corrupt)
           "/opt/yolov7/runs/detect/GUI_exp/cat.jpg" demo_detecting
           (Exception "UnidentifiedImageError"
              "/opt/yolov7/runs/detect/GUI_exp/cat.jpg"));
    [discriminate | reflexivity].
Defined.

Lemma detection_run_reported_failure_witness :
  let w' := detection_run (demo_env world_crashed) (demo_env world_crashed)
              (demo_env world_crashed) demo_selected in
  ui w' =
    ui (demo_selected
          |> info_label_config "Detection failed or output not found."
          |> clear_label result_label
          |> detect_button_config NORMAL
          |> browse_button_config NORMAL
          |> reset_button_config NORMAL) /\
  In (showerror "Execution Error"
        ("An unexpected error occurred during detection:" ++ nl ++
         "PermissionError: denied"))
     (trace w').
Proof.
  apply (@detection_run_reported_failure (demo_env world_crashed)
           (demo_env world_crashed) (demo_env world_crashed) demo_selected
           "/home/u/cat.jpg" "Execution Error"
           ("An unexpected error occurred during detection:" ++ nl ++
            "PermissionError: denied"));
    try reflexivity; discriminate.
Defined.

Lemma start_detection_thread_missing_weights_only_warns_witness :
  (os_path_isfile (demo_env world_no_weights)
     (weights_path (ui demo_selected)) = true ->
   start_detection_thread (demo_env world_no_weights) demo_selected
   = prepare_and_start demo_selected) /\
  (os_path_isfile (demo_env world_no_weights)
     (weights_path (ui demo_selected)) = false ->
   exists message,
     start_detection_thread (demo_env world_no_weights) demo_selected =
       prepare_and_start
         (messagebox_showwarning "Setup Warning" message demo_selected)).
Proof.
  apply (@start_detection_thread_missing_weights_only_warns
           (demo_env world_no_weights) demo_selected "/home/u/cat.jpg");
    try reflexivity; discriminate.
Defined.

Lemma mainloop_inert_while_disabled_witness :
  controls_disabled (ui (mainloop demo_fidgeting demo_detecting)) /\
  trace (mainloop demo_fidgeting demo_detecting) = trace demo_detecting /\
  input_image_path (ui (mainloop demo_fidgeting demo_detecting))
  = input_image_path (ui demo_detecting).
Proof.
  apply (@mainloop_inert_while_disabled demo_fidgeting demo_detecting).
  - intros ev [<-|[<-|[<-|[<-|[]]]]]; reflexivity.
  - repeat split.
Defined.
